(** * PlanVector: the upload / review page (pages/app/upload.tsx)

    A shallow embedding of the three functions of [UploadPage]
    ([fileToPNGDataURL], [handleUpload], [approveExport]) together with the
    part of the browser platform and of the Supabase collaborators that they
    touch, and the properties of the processing / review workflow. *)

From Stdlib Require Import ZArith NArith List String Ascii Lia Bool.
From stdpp Require Import base gmap strings list pretty.

Set Warnings "-register-all".
Local Open Scope string_scope.
Local Open Scope Z_scope.
Local Open Scope list_scope.

(* ===================================================================== *)
(** ** The JavaScript values the page handles *)
(* ===================================================================== *)

Module JS.

(** What an abrupt completion carries.  [TypeError] is also what a rejected
    [fetch] carries; [PdfException] stands for whatever pdf.js rejects
    [getDocument] with. *)
Inductive Exception :=
| TypeError
| SyntaxError
| InvalidCharacterError
| PdfException.

Inductive Completion (A : Type) :=
| Normal (a : A)
| Throw (e : Exception).
Arguments Normal {A} a.
Arguments Throw {A} e.

Definition and_then {A B} (c : Completion A) (k : A -> Completion B) : Completion B :=
  match c with
  | Normal a => k a
  | Throw e => Throw e
  end.

(** A Number, given by the decimal the language itself prints it from:
    [Finite neg s n] is the value [s * 10^(n-k)] (negated when [neg]), where
    [k] is the number of decimal digits of [s] and [s] is the shortest such
    digit string (ECMA-262, Number::toString, step 5). *)
Inductive JSNum :=
| NaN
| Infinity (neg : bool)
| Zero
| Finite (neg : bool) (s : positive) (n : Z).

Fixpoint zeros (m : nat) : string :=
  match m with
  | O => EmptyString
  | S m' => String "0" (zeros m')
  end.

Definition String_take (n : nat) (s : string) : string := substring 0 n s.
Definition String_drop (n : nat) (s : string) : string :=
  substring n (String.length s - n) s.

(** Number::toString for a positive finite value, radix 10. *)
Definition digits_toString (s : positive) (n : Z) : string :=
  let ds := pretty s in
  let k := Z.of_nat (String.length ds) in
  if (k <=? n) && (n <=? 21) then
    ds +:+ zeros (Z.to_nat (n - k))
  else if (0 <? n) && (n <=? 21) then
    String_take (Z.to_nat n) ds +:+ "." +:+ String_drop (Z.to_nat n) ds
  else if (-6 <? n) && (n <=? 0) then
    "0." +:+ zeros (Z.to_nat (- n)) +:+ ds
  else
    let e := n - 1 in
    let es := (if n <? 0 then "-" else "+") +:+ pretty (Z.abs e) in
    match ds with
    | EmptyString => EmptyString
    | String d EmptyString => String d ("e" +:+ es)
    | String d rest => String d ("." +:+ rest +:+ "e" +:+ es)
    end.

Definition Number_toString (x : JSNum) : string :=
  match x with
  | NaN => "NaN"
  | Zero => "0"
  | Infinity false => "Infinity"
  | Infinity true => "-Infinity"
  | Finite false s n => digits_toString s n
  | Finite true s n => "-" +:+ digits_toString s n
  end.

(** A value as [JSON.parse] (or the page itself) produces it.  Strings hold
    code units below 256, which covers every string the page builds or
    decodes. *)
Inductive JSValue :=
| JUndefined
| JNull
| JBool (b : bool)
| JNumber (x : JSNum)
| JString (s : string)
| JArray (elems : list JSValue)
| JObject (props : list (string * JSValue)).

Fixpoint own_property (key : string) (props : list (string * JSValue)) : option JSValue :=
  match props with
  | [] => None
  | (k, v) :: rest => if String.eqb k key then Some v else own_property key rest
  end.

(** [v.key] for the keys the page reads ([id], [svg], [metrics],
    [confidence], [walls_len_ft], [line_count]): none of them is found on a
    prototype, so only an object's own properties answer. *)
Definition get (v : JSValue) (key : string) : Completion JSValue :=
  match v with
  | JUndefined | JNull => Throw TypeError
  | JObject props =>
      match own_property key props with
      | Some x => Normal x
      | None => Normal JUndefined
      end
  | _ => Normal JUndefined
  end.

(** ToBoolean. *)
Definition truthy (v : JSValue) : bool :=
  match v with
  | JUndefined | JNull => false
  | JBool b => b
  | JNumber NaN | JNumber Zero => false
  | JNumber _ => true
  | JString s => negb (String.eqb s EmptyString)
  | JArray _ | JObject _ => true
  end.

(** ToString, as a template literal, [String(...)] and [atob] apply it.  A
    parsed object prints through [Object.prototype.toString] unless the
    payload shadows [toString] with a (necessarily non-callable) property,
    in which case OrdinaryToPrimitive finds nothing to call. *)
Fixpoint ToString (v : JSValue) : Completion string :=
  match v with
  | JUndefined => Normal "undefined"
  | JNull => Normal "null"
  | JBool true => Normal "true"
  | JBool false => Normal "false"
  | JNumber x => Normal (Number_toString x)
  | JString s => Normal s
  | JArray elems =>
      (fix join (l : list JSValue) : Completion string :=
         match l with
         | [] => Normal EmptyString
         | e :: rest =>
             let head :=
               match e with
               | JUndefined | JNull => Normal EmptyString
               | _ => ToString e
               end in
             match head with
             | Throw x => Throw x
             | Normal h =>
                 match rest with
                 | [] => Normal h
                 | _ :: _ =>
                     match join rest with
                     | Throw x => Throw x
                     | Normal t => Normal (h +:+ "," +:+ t)
                     end
                 end
             end
         end) elems
  | JObject props =>
      match own_property "toString" props with
      | Some _ => Throw TypeError
      | None => Normal "[object Object]"
      end
  end.

(** *** [atob]: the forgiving-base64 decode of the HTML standard *)

Definition is_ascii_whitespace (c : ascii) : bool :=
  match N_of_ascii c with
  | 9 | 10 | 12 | 13 | 32 => true
  | _ => false
  end%N.

Definition sextet_of_char (c : ascii) : option N :=
  let n := N_of_ascii c in
  (if (65 <=? n) && (n <=? 90) then Some (n - 65)
   else if (97 <=? n) && (n <=? 122) then Some (n - 71)
   else if (48 <=? n) && (n <=? 57) then Some (n + 4)
   else if n =? 43 then Some 62
   else if n =? 47 then Some 63
   else None)%N.
Arguments sextet_of_char c : simpl never.

Fixpoint sextets_of (l : list ascii) : option (list N) :=
  match l with
  | [] => Some []
  | c :: rest =>
      match sextet_of_char c, sextets_of rest with
      | Some x, Some xs => Some (x :: xs)
      | _, _ => None
      end
  end.

(** Step 2 of the decode: with a length that is a multiple of four, one or
    two trailing [=] are dropped. *)
Definition strip_padding (l : list ascii) : list ascii :=
  if (length l mod 4 =? 0)%nat then
    match rev l with
    | "="%char :: "="%char :: r => rev r
    | "="%char :: r => rev r
    | _ => l
    end
  else l.

(** Four sextets make three bytes; a tail of three makes two and a tail of
    two makes one, the spare low bits being discarded. *)
Fixpoint bytes_of_sextets (l : list N) : list N :=
  match l with
  | a :: b :: c :: d :: rest =>
      let n := (((a * 64 + b) * 64 + c) * 64 + d)%N in
      (n / 65536)%N :: ((n / 256) mod 256)%N :: (n mod 256)%N :: bytes_of_sextets rest
  | [a; b; c] =>
      let n := (((a * 64 + b) * 64 + c) / 4)%N in
      [(n / 256)%N; (n mod 256)%N]
  | [a; b] => [((a * 64 + b) / 16)%N]
  | _ => []
  end.

Definition forgiving_base64_decode (data : string) : option (list N) :=
  let l := filter (fun c => is_ascii_whitespace c = false) (list_ascii_of_string data) in
  let l := strip_padding l in
  if (length l mod 4 =? 1)%nat then None
  else bytes_of_sextets <$> sextets_of l.

(** [atob] returns a "binary string": one code unit per decoded byte. *)
Definition atob (data : string) : Completion string :=
  match forgiving_base64_decode data with
  | Some bs => Normal (string_of_list_ascii (map ascii_of_N bs))
  | None => Throw InvalidCharacterError
  end.

(** *** [new Blob([text])]: the text is stored UTF-8 encoded *)

Definition utf8_of_unit (c : ascii) : list N :=
  let n := N_of_ascii c in
  if (n <? 128)%N then [n] else [(192 + n / 64)%N; (128 + n mod 64)%N].

Fixpoint utf8_encode (s : string) : list N :=
  match s with
  | EmptyString => []
  | String c rest => utf8_of_unit c ++ utf8_encode rest
  end.

End JS.

Import JS.

(* ===================================================================== *)
(** ** Collaborators: RecordStore, ObjectStore, worker *)
(* ===================================================================== *)

(** A page of a parsed PDF is opaque to the workflow. *)
Definition Page := N.

(** What the bytes of a [File] are: a PDF that pdf.js opens, with its pages
    in order, or anything else. *)
Inductive FileContent :=
| PdfPages (pages : list Page)
| Opaque (bytes : list N).

Record File := {
  file_name : string;
  file_type : string;
  file_content : FileContent
}.

Record User := { user_id : string }.

Record Viewport := { vp_page : Page; vp_scale : JSNum }.

Inductive Url :=
| PngDataUrl (v : Viewport)            (* canvas.toDataURL('image/png') *)
| ObjectUrl (f : File)                 (* URL.createObjectURL(f) *)
| PublicUrl (bucket path : string).    (* storage.from(bucket).getPublicUrl(path) *)

Inductive Blob :=
| PngBlob (v : Viewport)               (* the PNG behind a canvas data URL *)
| FileBlob (f : File)                  (* the file behind an object URL *)
| TextBlob (type : string) (bytes : list N)   (* new Blob([text], {type}) *)
| StrayBlob (bytes : list N).          (* the body of any other response *)

Record PlanRow := {
  plan_id : string;
  plan_user_id : string;
  plan_name : string;
  plan_page_count : nat;
  plan_status : string;
  plan_created_at : Z
}.

Record OutputRow := {
  out_plan_id : string;
  out_svg_path : string;
  out_dxf_path : option string;
  out_csv_path : option string;
  out_metrics : JSValue;
  out_confidence : JSValue
}.

Record ReviewRow := { review_plan_id : string; review_status : string }.

Record LedgerRow := {
  ledger_user_id : string;
  ledger_plan_id : string;
  ledger_event : string;
  ledger_delta_credits : Z
}.

(** Every request the page sends to a collaborator, in the order sent and
    whether or not the collaborator honours it. *)
Inductive Request :=
| InsertPlan (user name : string) (page_count : nat)
| Upload (bucket path : string) (b : Blob)
| Vectorize (image_url : Url) (px_per_ft : string)
| InsertOutput (row : OutputRow)
| UpdatePlan (id : string) (page_count : nat) (status : string)
| SelectLatestPlan
| InsertReview (row : ReviewRow)
| InsertLedger (row : LedgerRow)
| UpdateOutputCsv (plan : string) (csv : string).

Record World := {
  plans : list PlanRow;
  outputs : list OutputRow;
  reviews : list ReviewRow;
  usage_ledger : list LedgerRow;
  storage : gmap (string * string) Blob;
  sent : list Request
}.

(** The page's React state. *)
Record Component := {
  user : option User;
  file : option File;
  pxPerFt : JSNum;
  preview : JSValue;
  originalImg : option Url
}.

(** Modelled from the spec: the schema of the [plans] table is not part of
    the sources; a row inserted without a status gets the initial status
    [created] (section 3, "status in {created, processed}"). *)
Definition INITIAL_STATUS : string := "created".

(** What the database generates for an inserted plan row. *)
Record Generated := { gen_id : string; gen_created_at : Z }.

Inductive WorkerReply :=
| NetworkFailure                                  (* fetch rejects *)
| HttpReply (status : Z) (body : option JSValue). (* body None: not JSON *)

(** The collaborators' answers to one run of [handleUpload], in call
    order.  A [false] is supabase-js answering with [error] set. *)
Record UploadEnv := {
  plan_insert_reply : option Generated;
  stray_fetch_reply : Completion (list N);
  raster_upload_ok : bool;
  worker_reply : WorkerReply;
  svg_upload_ok : bool;
  output_insert_ok : bool;
  plan_update_ok : bool
}.

(** The same for one run of [approveExport]. *)
Record ApproveEnv := {
  select_ok : bool;
  review_insert_ok : bool;
  ledger_insert_ok : bool;
  csv_upload_ok : bool;
  output_update_ok : bool
}.

(* ===================================================================== *)
(** ** An async function body: state, early exit, rejection *)
(* ===================================================================== *)

(** How a handler ends. *)
Inductive Exit :=
| Guard                      (* the bare [return] of the first line *)
| Alert (msg : string)       (* [alert(msg)] and then the end or [return] *)
| NoLatestPlan               (* [if (!latestPlan) return] *)
| CsvNotStored               (* [up.error] set: the end is reached silently *)
| Reject (e : Exception).    (* an awaited step threw *)

Record St := { comp : Component; world : World }.

Definition Async (A : Type) : Type := St -> (Exit + A) * St.

Definition ret {A} (a : A) : Async A := fun s => (inr a, s).

Definition bind {A B} (m : Async A) (k : A -> Async B) : Async B :=
  fun s =>
    match m s with
    | (inl e, s') => (inl e, s')
    | (inr a, s') => k a s'
    end.

Definition leave {A} (e : Exit) : Async A := fun s => (inl e, s).

Definition await {A} (c : Completion A) : Async A :=
  match c with
  | Normal a => ret a
  | Throw e => leave (Reject e)
  end.

Definition on_world (f : World -> World) : Async unit :=
  fun s => (inr tt, {| comp := comp s; world := f (world s) |}).

Definition on_comp (f : Component -> Component) : Async unit :=
  fun s => (inr tt, {| comp := f (comp s); world := world s |}).

Definition read_world : Async World := fun s => (inr (world s), s).

Declare Scope async_scope.
Delimit Scope async_scope with async.
Notation "x <- m ;; k" := (bind m (fun x => k))
  (at level 100, m at next level, right associativity) : async_scope.
Notation "m ;; k" := (bind m (fun _ => k))
  (at level 100, right associativity) : async_scope.
Local Open Scope async_scope.

Definition finish (r : (Exit + Exit) * St) : Exit * Component * World :=
  match r with
  | (inl e, s) => (e, comp s, world s)
  | (inr e, s) => (e, comp s, world s)
  end.

Definition run (m : Async Exit) (c : Component) (w : World) : Exit * Component * World :=
  finish (m {| comp := c; world := w |}).

(* ===================================================================== *)
(** ** The supabase-js, fetch and pdf.js calls of the page *)
(* ===================================================================== *)

Definition log (r : Request) (w : World) : World :=
  {| plans := plans w; outputs := outputs w; reviews := reviews w;
     usage_ledger := usage_ledger w; storage := storage w;
     sent := sent w ++ [r] |}.

Definition with_plans (f : list PlanRow -> list PlanRow) (w : World) : World :=
  {| plans := f (plans w); outputs := outputs w; reviews := reviews w;
     usage_ledger := usage_ledger w; storage := storage w; sent := sent w |}.

Definition with_outputs (f : list OutputRow -> list OutputRow) (w : World) : World :=
  {| plans := plans w; outputs := f (outputs w); reviews := reviews w;
     usage_ledger := usage_ledger w; storage := storage w; sent := sent w |}.

Definition with_reviews (f : list ReviewRow -> list ReviewRow) (w : World) : World :=
  {| plans := plans w; outputs := outputs w; reviews := f (reviews w);
     usage_ledger := usage_ledger w; storage := storage w; sent := sent w |}.

Definition with_ledger (f : list LedgerRow -> list LedgerRow) (w : World) : World :=
  {| plans := plans w; outputs := outputs w; reviews := reviews w;
     usage_ledger := f (usage_ledger w); storage := storage w; sent := sent w |}.

Definition with_storage (f : gmap (string * string) Blob -> gmap (string * string) Blob)
    (w : World) : World :=
  {| plans := plans w; outputs := outputs w; reviews := reviews w;
     usage_ledger := usage_ledger w; storage := f (storage w); sent := sent w |}.

(** [supabase.from('plans').insert({...}).select().single()]: the row as
    the database completed it, or nothing when [error] is set. *)
Definition plans_insert (reply : option Generated) (uid name : string) (page_count : nat)
    : Async (option PlanRow) :=
  on_world (log (InsertPlan uid name page_count)) ;;
  match reply with
  | None => ret None
  | Some g =>
      let row := {| plan_id := gen_id g; plan_user_id := uid; plan_name := name;
                    plan_page_count := page_count; plan_status := INITIAL_STATUS;
                    plan_created_at := gen_created_at g |} in
      on_world (with_plans (fun ps => ps ++ [row])) ;;
      ret (Some row)
  end.

(** [supabase.storage.from(bucket).upload(path, blob, { upsert: true })];
    the result is whether [error] is set. *)
Definition storage_upload (ok : bool) (bucket path : string) (b : Blob) : Async bool :=
  on_world (log (Upload bucket path b)) ;;
  if ok then
    on_world (with_storage (fun m => <[(bucket, path) := b]> m)) ;;
    ret false
  else ret true.

(** [supabase.from('outputs').insert(row)] *)
Definition outputs_insert (ok : bool) (row : OutputRow) : Async unit :=
  on_world (log (InsertOutput row)) ;;
  if ok then on_world (with_outputs (fun os => os ++ [row])) else ret tt.

Definition set_processed (id : string) (page_count : nat) (status : string) (p : PlanRow)
    : PlanRow :=
  if String.eqb (plan_id p) id then
    {| plan_id := plan_id p; plan_user_id := plan_user_id p; plan_name := plan_name p;
       plan_page_count := page_count; plan_status := status;
       plan_created_at := plan_created_at p |}
  else p.

(** [supabase.from('plans').update({ page_count, status }).eq('id', id)] *)
Definition plans_update (ok : bool) (id : string) (page_count : nat) (status : string)
    : Async unit :=
  on_world (log (UpdatePlan id page_count status)) ;;
  if ok then on_world (with_plans (map (set_processed id page_count status))) else ret tt.

(** The first row in descending [created_at] order; among equal stamps the
    earlier row of the table is kept. *)
Fixpoint latest (ps : list PlanRow) : option PlanRow :=
  match ps with
  | [] => None
  | p :: rest =>
      match latest rest with
      | Some q => if plan_created_at p <? plan_created_at q then Some q else Some p
      | None => Some p
      end
  end.

(** [supabase.from('plans').select('*').order('created_at', { ascending:
    false }).limit(1).single()]: [data] is null when the query fails or
    finds no row. *)
Definition plans_select_latest (ok : bool) : Async (option PlanRow) :=
  on_world (log SelectLatestPlan) ;;
  w <- read_world ;;
  if ok then ret (latest (plans w)) else ret None.

(** [supabase.from('reviews').insert(row)] *)
Definition reviews_insert (ok : bool) (row : ReviewRow) : Async unit :=
  on_world (log (InsertReview row)) ;;
  if ok then on_world (with_reviews (fun rs => rs ++ [row])) else ret tt.

(** [supabase.from('usage_ledger').insert(row)] *)
Definition usage_ledger_insert (ok : bool) (row : LedgerRow) : Async unit :=
  on_world (log (InsertLedger row)) ;;
  if ok then on_world (with_ledger (fun ls => ls ++ [row])) else ret tt.

Definition set_csv_path (plan csv : string) (o : OutputRow) : OutputRow :=
  if String.eqb (out_plan_id o) plan then
    {| out_plan_id := out_plan_id o; out_svg_path := out_svg_path o;
       out_dxf_path := out_dxf_path o; out_csv_path := Some csv;
       out_metrics := out_metrics o; out_confidence := out_confidence o |}
  else o.

(** [supabase.from('outputs').update({ csv_path }).eq('plan_id', plan)] *)
Definition outputs_update_csv (ok : bool) (plan csv : string) : Async unit :=
  on_world (log (UpdateOutputCsv plan csv)) ;;
  if ok then on_world (with_outputs (map (set_csv_path plan csv))) else ret tt.

(** [fetch(`${WORKER_URL}/vectorize_url`, ...)] followed by [r.json()].
    The status of the response is not looked at. *)
Definition vectorize_url (reply : WorkerReply) (image_url : Url) (px_per_ft : string)
    : Async JSValue :=
  on_world (log (Vectorize image_url px_per_ft)) ;;
  match reply with
  | NetworkFailure => leave (Reject TypeError)
  | HttpReply _ None => leave (Reject SyntaxError)
  | HttpReply _ (Some json) => ret json
  end.

(** [fetch(url)] then [response.blob()] for the URLs the page makes itself;
    [dataUrls[0]] of an empty array is [undefined], and what fetching that
    yields is up to the server. *)
Definition fetch_blob (stray : Completion (list N)) (url : option Url) : Completion Blob :=
  match url with
  | Some (PngDataUrl v) => Normal (PngBlob v)
  | Some (ObjectUrl f) => Normal (FileBlob f)
  | _ =>
      match stray with
      | Normal bytes => Normal (StrayBlob bytes)
      | Throw e => Throw e
      end
  end.

Definition setOriginalImg (u : Url) : Async unit :=
  on_comp (fun c => {| user := user c; file := file c; pxPerFt := pxPerFt c;
                       preview := preview c; originalImg := Some u |}).

Definition setPreview (json : JSValue) : Async unit :=
  on_comp (fun c => {| user := user c; file := file c; pxPerFt := pxPerFt c;
                       preview := json; originalImg := originalImg c |}).

(** pdf.js: [getDocument({ data }).promise] and [pdf.getPage(i)], pages
    being numbered from 1. *)
Definition getDocument (f : File) : Completion (list Page) :=
  match file_content f with
  | PdfPages pages => Normal pages
  | Opaque _ => Throw PdfException
  end.

Definition numPages (pdf : list Page) : nat := length pdf.

Definition getPage (pdf : list Page) (i : nat) : Completion Page :=
  match i with
  | O => Throw PdfException
  | S j =>
      match pdf !! j with
      | Some p => Normal p
      | None => Throw PdfException
      end
  end.

(* ===================================================================== *)
(** ** upload.tsx *)
(* ===================================================================== *)

Definition LF : string := String "010" EmptyString.

(** The body of [for (let i = 1; i <= maxPages; i++)], with [todo] the
    number of iterations still to run. *)
Fixpoint render_pages (pdf : list Page) (i todo : nat) (urls : list Url)
    : Completion (list Url) :=
  match todo with
  | O => Normal urls
  | S todo' =>
      match getPage pdf i with
      | Throw e => Throw e
      | Normal page =>
          let viewport := {| vp_page := page; vp_scale := Finite false 2 1 |} in
          render_pages pdf (S i) todo' (urls ++ [PngDataUrl viewport])
      end
  end.

Definition fileToPNGDataURL (f : File) : Completion (list Url) :=
  if String.eqb (file_type f) "application/pdf" then
    match getDocument f with
    | Throw e => Throw e
    | Normal pdf =>
        let maxPages := Nat.min (numPages pdf) 5 in
        render_pages pdf 1 maxPages []
    end
  else Normal [ObjectUrl f].

(** [atob(json.svg)] *)
Definition decode_svg (json : JSValue) : Completion string :=
  and_then (get json "svg") (fun svg =>
  and_then (ToString svg) (fun text =>
  atob text)).

Definition handleUpload (env : UploadEnv) : Async Exit :=
  fun s =>
  match user (comp s), file (comp s) with
  | Some user, Some file =>
     (planIns <- plans_insert (plan_insert_reply env) (user_id user) (file_name file) 0 ;;
      match planIns with
      | None => ret (Alert "DB plan error")
      | Some planIns =>
          let planId := plan_id planIns in
          dataUrls <- await (fileToPNGDataURL file) ;;
          let pageCount := length dataUrls in
          blob <- await (fetch_blob (stray_fetch_reply env) (head dataUrls)) ;;
          let path := "user-" +:+ user_id user +:+ "/" +:+ planId +:+ "/page-1.png" in
          uploadRes_error <- storage_upload (raster_upload_ok env) "plans" path blob ;;
          if uploadRes_error : bool then ret (Alert "Storage upload failed")
          else
            let publicUrl := PublicUrl "plans" path in
            setOriginalImg publicUrl ;;
            json <- vectorize_url (worker_reply env) publicUrl
                      (Number_toString (pxPerFt (comp s))) ;;
            setPreview json ;;
            svgBytes <- await (decode_svg json) ;;
            let svgBlob := TextBlob "image/svg+xml" (utf8_encode svgBytes) in
            let svgPath := "user-" +:+ user_id user +:+ "/" +:+ planId +:+ "/page-1.svg" in
            svgUp_error <- storage_upload (svg_upload_ok env) "outputs" svgPath svgBlob ;;
            if svgUp_error : bool then ret (Alert "SVG store failed")
            else
              metrics <- await (get json "metrics") ;;
              confidence <- await (get json "confidence") ;;
              outputs_insert (output_insert_ok env)
                {| out_plan_id := planId; out_svg_path := svgPath;
                   out_dxf_path := None; out_csv_path := None;
                   out_metrics := metrics; out_confidence := confidence |} ;;
              plans_update (plan_update_ok env) planId pageCount "processed" ;;
              ret (Alert "Processed. Review below.")
      end) s
  | _, _ => ret Guard s
  end.

(** The template literal that builds the CSV: the two substitutions are
    evaluated, and converted to strings, from left to right. *)
Definition csv_text (preview : JSValue) : Completion string :=
  and_then (get preview "metrics") (fun metrics =>
  and_then (get metrics "walls_len_ft") (fun walls_len_ft =>
  and_then (ToString walls_len_ft) (fun walls_len_ft =>
  and_then (get preview "metrics") (fun metrics =>
  and_then (get metrics "line_count") (fun line_count =>
  and_then (ToString line_count) (fun line_count =>
  Normal ("metric,value" +:+ LF +:+ "walls_len_ft," +:+ walls_len_ft +:+ LF
          +:+ "line_count," +:+ line_count +:+ LF))))))).

Definition approveExport (env : ApproveEnv) : Async Exit :=
  fun s =>
  match user (comp s) with
  | Some user =>
      if truthy (preview (comp s)) then
       (let preview := preview (comp s) in
        latestPlan <- plans_select_latest (select_ok env) ;;
        match latestPlan with
        | None => ret NoLatestPlan
        | Some latestPlan =>
            reviews_insert (review_insert_ok env)
              {| review_plan_id := plan_id latestPlan; review_status := "approved" |} ;;
            usage_ledger_insert (ledger_insert_ok env)
              {| ledger_user_id := user_id user; ledger_plan_id := plan_id latestPlan;
                 ledger_event := "export_approved"; ledger_delta_credits := -1 |} ;;
            csv <- await (csv_text preview) ;;
            let csvBlob := TextBlob "text/csv" (utf8_encode csv) in
            let csvPath := "user-" +:+ user_id user +:+ "/" +:+ plan_id latestPlan
                           +:+ "/page-1.csv" in
            up_error <- storage_upload (csv_upload_ok env) "outputs" csvPath csvBlob ;;
            if up_error : bool then ret CsvNotStored
            else
              outputs_update_csv (output_update_ok env) (plan_id latestPlan) csvPath ;;
              ret (Alert "Approved & exported CSV.")
        end) s
      else ret Guard s
  | None => ret Guard s
  end.


(** What the component returns: nothing (after sending a browser to
    [/login]), or the upload form, followed either by the falsy [preview]
    itself or by the review panel with the approve button. *)
Record ReviewPanel := {
  panel_original : option Url;
  panel_svg_html : string;
  panel_confidence : JSValue;
  panel_walls_len_ft : JSValue
}.

Inductive Rendered :=
| Nothing (redirected : bool)
| UploadForm (scale : JSNum) (review : JSValue + ReviewPanel).

(** The body of [UploadPage] after the hooks (lines 166-223): the guard on
    [user], then the JSX, whose expressions are evaluated in source order:
    [atob(preview.svg)], [preview.confidence],
    [preview.metrics.walls_len_ft].  [in_browser] is
    [typeof window !== 'undefined']. *)
Definition render (in_browser : bool) (c : Component) : Completion Rendered :=
  match user c with
  | None => Normal (Nothing in_browser)
  | Some _ =>
      if truthy (preview c) then
        and_then (decode_svg (preview c)) (fun html =>
        and_then (get (preview c) "confidence") (fun confidence =>
        and_then (get (preview c) "metrics") (fun metrics =>
        and_then (get metrics "walls_len_ft") (fun walls_len_ft =>
        Normal (UploadForm (pxPerFt c)
                  (inr {| panel_original := originalImg c;
                          panel_svg_html := html;
                          panel_confidence := confidence;
                          panel_walls_len_ft := walls_len_ft |}))))))
      else Normal (UploadForm (pxPerFt c) (inl (preview c)))
  end.

(* ===================================================================== *)
(** ** Vocabulary of the statements *)
(* ===================================================================== *)

(** What the caller of a handler, and the user in front of the page, get
    to see of a run.  The handlers return no value, so the promise is either
    fulfilled, after at most one [alert], or rejected with the exception of
    the step that threw.  The three bare returns look alike. *)
Inductive Outcome :=
| Fulfilled (alerted : option string)
| Rejected (e : Exception).

Definition outcome (e : Exit) : Outcome :=
  match e with
  | Guard | NoLatestPlan | CsvNotStored => Fulfilled None
  | Alert msg => Fulfilled (Some msg)
  | Reject x => Rejected x
  end.

(** The row [handleUpload] asks the database to create. *)
Definition inserted_plan (u : User) (f : File) (g : Generated) : PlanRow :=
  {| plan_id := gen_id g; plan_user_id := user_id u; plan_name := file_name f;
     plan_page_count := 0; plan_status := INITIAL_STATUS;
     plan_created_at := gen_created_at g |}.

(** [user-{userId}/{planId}/page-1.{ext}] *)
Definition object_path (u : User) (plan : string) (ext : string) : string :=
  "user-" +:+ user_id u +:+ "/" +:+ plan +:+ "/page-1." +:+ ext.

Definition field (json : JSValue) (key : string) : JSValue :=
  match get json key with
  | Normal v => v
  | Throw _ => JUndefined
  end.

Definition output_row (u : User) (g : Generated) (json : JSValue) : OutputRow :=
  {| out_plan_id := gen_id g; out_svg_path := object_path u (gen_id g) "svg";
     out_dxf_path := None; out_csv_path := None;
     out_metrics := field json "metrics"; out_confidence := field json "confidence" |}.

(** The requests of a run of [handleUpload] that gets past the SVG upload. *)
Definition upload_requests (c : Component) (u : User) (f : File) (g : Generated)
    (urls : list Url) (blob : Blob) (json : JSValue) (svg : string) : list Request :=
  [ InsertPlan (user_id u) (file_name f) 0;
    Upload "plans" (object_path u (gen_id g) "png") blob;
    Vectorize (PublicUrl "plans" (object_path u (gen_id g) "png"))
              (Number_toString (pxPerFt c));
    Upload "outputs" (object_path u (gen_id g) "svg")
           (TextBlob "image/svg+xml" (utf8_encode svg));
    InsertOutput (output_row u g json);
    UpdatePlan (gen_id g) (length urls) "processed" ].

(** The steps of [handleUpload] before the worker call went well. *)
Record Reaches_worker (env : UploadEnv) (c : Component) (u : User) (f : File)
    (g : Generated) (urls : list Url) (blob : Blob) : Prop := {
  rw_user : user c = Some u;
  rw_file : file c = Some f;
  rw_plan : plan_insert_reply env = Some g;
  rw_pages : fileToPNGDataURL f = Normal urls;
  rw_blob : fetch_blob (stray_fetch_reply env) (head urls) = Normal blob;
  rw_raster : raster_upload_ok env = true
}.

(** Everything a run of [handleUpload] needs in order to reach its last
    line: each step whose result the code looks at went well. *)
Record Reaches_end (env : UploadEnv) (c : Component) (u : User) (f : File)
    (g : Generated) (urls : list Url) (blob : Blob) (json : JSValue) (svg : string)
    : Prop := {
  re_worker : Reaches_worker env c u f g urls blob;
  re_json : exists status, worker_reply env = HttpReply status (Some json);
  re_svg : decode_svg json = Normal svg;
  re_store : svg_upload_ok env = true
}.

(** What a failure of the worker call looks like to the page: [fetch]
    rejects, the body is not JSON, or [atob(json.svg)] throws.  The status
    of the response plays no part. *)
Definition worker_failure (r : WorkerReply) (e : Exception) : Prop :=
  match r with
  | NetworkFailure => e = TypeError
  | HttpReply _ None => e = SyntaxError
  | HttpReply _ (Some json) => decode_svg json = Throw e
  end.

Definition outputs_of (id : string) (w : World) : list OutputRow :=
  filter (fun o => out_plan_id o = id) (outputs w).

Definition plans_with_id (id : string) (w : World) : list PlanRow :=
  filter (fun p => plan_id p = id) (plans w).

(** The database hands out an id that no row refers to yet. *)
Definition fresh_id (id : string) (w : World) : Prop :=
  (forall p, p ∈ plans w -> plan_id p <> id) /\
  (forall o, o ∈ outputs w -> out_plan_id o <> id).

Definition approval (p : PlanRow) : ReviewRow :=
  {| review_plan_id := plan_id p; review_status := "approved" |}.

Definition debit (u : User) (p : PlanRow) : LedgerRow :=
  {| ledger_user_id := user_id u; ledger_plan_id := plan_id p;
     ledger_event := "export_approved"; ledger_delta_credits := -1 |}.

Definition csv_blob (csv : string) : Blob := TextBlob "text/csv" (utf8_encode csv).

(** A run of [approveExport] got past the first line and found a plan. *)
Record Resolves (env : ApproveEnv) (c : Component) (w : World) (u : User) (p : PlanRow)
    : Prop := {
  rs_user : user c = Some u;
  rs_preview : truthy (preview c) = true;
  rs_select : select_ok env = true;
  rs_latest : latest (plans w) = Some p
}.

(** The balance of a user (section 3 of the specification): the sum of the
    credits of the user's ledger rows.  The page itself never computes it. *)
Definition credits (ls : list LedgerRow) : Z :=
  foldr Z.add 0 (ledger_delta_credits <$> ls).

Definition balance (uid : string) (w : World) : Z :=
  credits (filter (fun l => ledger_user_id l = uid) (usage_ledger w)).

(** Approvals one after the other, each with its own answers. *)
Fixpoint approvals (envs : list ApproveEnv) (c : Component) (w : World) : Component * World :=
  match envs with
  | [] => (c, w)
  | env :: rest =>
      let '(_, c', w') := run (approveExport env) c w in
      approvals rest c' w'
  end.

(** The bytes of an ASCII text. *)
Definition code_units (s : string) : list N := N_of_ascii <$> list_ascii_of_string s.

(** A text of code units below 128. *)
Definition ascii_text (s : string) : Prop :=
  Forall (fun c => (N_of_ascii c < 128)%N) (list_ascii_of_string s).

(** The data URL of a page rendered at scale 2. *)
Definition png_of (page : Page) : Url :=
  PngDataUrl {| vp_page := page; vp_scale := Finite false 2 1 |}.

Definition char_of_sextet (x : N) : ascii :=
  ascii_of_N (if x <? 26 then x + 65
              else if x <? 52 then x + 71
              else if x <? 62 then x - 4
              else if x =? 62 then 43 else 47)%N.

(** Modelled from the spec: the worker ([main.py]) is not part of the
    sources; section 6 has it return the SVG "binary-encoded", which the
    page reads with [atob], so the encoding is base64 (RFC 4648, padded). *)
Fixpoint b64encode (bs : list N) : string :=
  match bs with
  | [] => EmptyString
  | [a] =>
      String (char_of_sextet (a / 4))
     (String (char_of_sextet ((a mod 4) * 16)) "==")
  | [a; b] =>
      String (char_of_sextet (a / 4))
     (String (char_of_sextet ((a mod 4) * 16 + b / 16))
     (String (char_of_sextet ((b mod 16) * 4)) "="))
  | a :: b :: c :: rest =>
      String (char_of_sextet (a / 4))
     (String (char_of_sextet ((a mod 4) * 16 + b / 16))
     (String (char_of_sextet ((b mod 16) * 4 + c / 64))
     (String (char_of_sextet (c mod 64)) (b64encode rest))))
  end%N.

Definition byte_sized (bs : list N) : Prop := Forall (fun b => (b < 256)%N) bs.

(** The sextets that [b64encode] writes, and the padding it ends with. *)
Fixpoint sextets_of_bytes (bs : list N) : list N :=
  match bs with
  | [] => []
  | [a] => [a / 4; (a mod 4) * 16]
  | [a; b] => [a / 4; (a mod 4) * 16 + b / 16; (b mod 16) * 4]
  | a :: b :: c :: rest =>
      a / 4 :: (a mod 4) * 16 + b / 16 :: (b mod 16) * 4 + c / 64 :: c mod 64
        :: sextets_of_bytes rest
  end%N.

Fixpoint padding_of (bs : list N) : list ascii :=
  match bs with
  | [] => []
  | [_] => ["="%char; "="%char]
  | [_; _] => ["="%char]
  | _ :: _ :: _ :: rest => padding_of rest
  end.

(** The world once [approveExport] has sent the review and the debit. *)
Definition recorded (env : ApproveEnv) (u : User) (p : PlanRow) (w : World) : World :=
  {| plans := plans w;
     outputs := outputs w;
     reviews := reviews w ++ (if review_insert_ok env then [approval p] else []);
     usage_ledger := usage_ledger w ++ (if ledger_insert_ok env then [debit u p] else []);
     storage := storage w;
     sent := sent w ++ [SelectLatestPlan; InsertReview (approval p); InsertLedger (debit u p)] |}.

(** What follows the two inserts: building the CSV, uploading it, and the
    update of the output rows. *)
Definition export_step (env : ApproveEnv) (c : Component) (u : User) (p : PlanRow)
    (w1 : World) : Exit * World :=
  match csv_text (preview c) with
  | Throw e => (Reject e, w1)
  | Normal csv =>
      let path := object_path u (plan_id p) "csv" in
      let w2 := log (Upload "outputs" path (csv_blob csv)) w1 in
      if csv_upload_ok env then
        let w3 := with_storage (fun m => <[("outputs", path) := csv_blob csv]> m) w2 in
        let w4 := log (UpdateOutputCsv (plan_id p) path) w3 in
        (Alert "Approved & exported CSV.",
         if output_update_ok env
         then with_outputs (map (set_csv_path (plan_id p) path)) w4
         else w4)
      else (CsvNotStored, w2)
  end.

(* ===================================================================== *)
(** ** Sample data of the closed statements *)
(* ===================================================================== *)

Definition alice : User := {| user_id := "alice" |}.
Definition bob : User := {| user_id := "bob" |}.

Definition plan_pdf : File :=
  {| file_name := "plan.pdf"; file_type := "application/pdf";
     file_content := PdfPages [11; 12; 13]%N |}.

Definition seven_page_pdf : File :=
  {| file_name := "big.pdf"; file_type := "application/pdf";
     file_content := PdfPages [1; 2; 3; 4; 5; 6; 7]%N |}.

Definition zero_page_pdf : File :=
  {| file_name := "empty.pdf"; file_type := "application/pdf";
     file_content := PdfPages [] |}.

Definition notes_txt : File :=
  {| file_name := "notes.txt"; file_type := "text/plain";
     file_content := Opaque [104; 105]%N |}.

Definition broken_png : File :=
  {| file_name := "scan.png"; file_type := "image/png";
     file_content := Opaque [0; 1; 2]%N |}.

Definition sample_metrics : JSValue :=
  JObject [("walls_len_ft", JNumber (Finite false 1205 3));
           ("line_count", JNumber (Finite false 34 2))].

Definition sample_json : JSValue :=
  JObject [("svg", JString "PHN2Zy8+"); ("metrics", sample_metrics);
           ("confidence", JNumber (Finite false 9 0))].

Definition p1 : Generated := {| gen_id := "p1"; gen_created_at := 100 |}.

Definition all_ok : UploadEnv :=
  {| plan_insert_reply := Some p1;
     stray_fetch_reply := Throw TypeError;
     raster_upload_ok := true;
     worker_reply := HttpReply 200 (Some sample_json);
     svg_upload_ok := true;
     output_insert_ok := true;
     plan_update_ok := true |}.

(** The database turns the [outputs] insert down; everything else works. *)
Definition insert_rejected : UploadEnv :=
  {| plan_insert_reply := Some p1;
     stray_fetch_reply := Throw TypeError;
     raster_upload_ok := true;
     worker_reply := HttpReply 200 (Some sample_json);
     svg_upload_ok := true;
     output_insert_ok := false;
     plan_update_ok := true |}.

(** The worker answers 500, with a body that happens to decode. *)
Definition server_error : UploadEnv :=
  {| plan_insert_reply := Some p1;
     stray_fetch_reply := Throw TypeError;
     raster_upload_ok := true;
     worker_reply := HttpReply 500 (Some sample_json);
     svg_upload_ok := true;
     output_insert_ok := true;
     plan_update_ok := true |}.

(** The worker answers 500 with FastAPI's error body. *)
Definition server_error_detail : UploadEnv :=
  {| plan_insert_reply := Some p1;
     stray_fetch_reply := Throw TypeError;
     raster_upload_ok := true;
     worker_reply := HttpReply 500 (Some (JObject [("detail", JString "Internal Server Error")]));
     svg_upload_ok := true;
     output_insert_ok := true;
     plan_update_ok := true |}.

Definition plan_insert_fails : UploadEnv :=
  {| plan_insert_reply := None;
     stray_fetch_reply := Throw TypeError;
     raster_upload_ok := true;
     worker_reply := HttpReply 200 (Some sample_json);
     svg_upload_ok := true;
     output_insert_ok := true;
     plan_update_ok := true |}.

Definition worker_down : UploadEnv :=
  {| plan_insert_reply := Some p1;
     stray_fetch_reply := Throw TypeError;
     raster_upload_ok := true;
     worker_reply := NetworkFailure;
     svg_upload_ok := true;
     output_insert_ok := true;
     plan_update_ok := true |}.

(** The UTF-8 bytes of an SVG holding one accented letter: [<svg>é</svg>]. *)
Definition accented_svg : list N :=
  [60; 115; 118; 103; 62; 195; 169; 60; 47; 115; 118; 103; 62]%N.

Definition accented_reply : UploadEnv :=
  {| plan_insert_reply := Some p1;
     stray_fetch_reply := Throw TypeError;
     raster_upload_ok := true;
     worker_reply :=
       HttpReply 200
         (Some (JObject [("svg", JString (b64encode accented_svg));
                         ("metrics", sample_metrics);
                         ("confidence", JNumber (Finite false 9 0))]));
     svg_upload_ok := true;
     output_insert_ok := true;
     plan_update_ok := true |}.

Definition approve_ok : ApproveEnv :=
  {| select_ok := true; review_insert_ok := true; ledger_insert_ok := true;
     csv_upload_ok := true; output_update_ok := true |}.

Definition csv_upload_fails : ApproveEnv :=
  {| select_ok := true; review_insert_ok := true; ledger_insert_ok := true;
     csv_upload_ok := false; output_update_ok := true |}.

Definition fresh_page : Component :=
  {| user := Some alice; file := Some plan_pdf; pxPerFt := Finite false 12 2;
     preview := JNull; originalImg := None |}.

Definition signed_out : Component :=
  {| user := None; file := Some plan_pdf; pxPerFt := Finite false 12 2;
     preview := JNull; originalImg := None |}.

Definition reviewed_page : Component :=
  {| user := Some alice; file := Some plan_pdf; pxPerFt := Finite false 12 2;
     preview := sample_json; originalImg := None |}.

Definition bobs_page : Component :=
  {| user := Some bob; file := None; pxPerFt := Finite false 12 2;
     preview := sample_json; originalImg := None |}.

Definition empty_world : World :=
  {| plans := []; outputs := []; reviews := []; usage_ledger := [];
     storage := ∅; sent := [] |}.

Definition plan_p1 : PlanRow :=
  {| plan_id := "p1"; plan_user_id := "alice"; plan_name := "plan.pdf";
     plan_page_count := 3; plan_status := "processed"; plan_created_at := 100 |}.

Definition plan_p0 : PlanRow :=
  {| plan_id := "p0"; plan_user_id := "bob"; plan_name := "old.png";
     plan_page_count := 1; plan_status := "processed"; plan_created_at := 50 |}.

Definition output_p1 : OutputRow :=
  {| out_plan_id := "p1"; out_svg_path := "user-alice/p1/page-1.svg";
     out_dxf_path := None; out_csv_path := None;
     out_metrics := sample_metrics; out_confidence := JNumber (Finite false 9 0) |}.

Definition two_plans : World :=
  {| plans := [plan_p0; plan_p1]; outputs := [output_p1]; reviews := [];
     usage_ledger := []; storage := ∅; sent := [] |}.

Definition raster_upload_fails : UploadEnv :=
  {| plan_insert_reply := Some p1;
     stray_fetch_reply := Throw TypeError;
     raster_upload_ok := false;
     worker_reply := HttpReply 200 (Some sample_json);
     svg_upload_ok := true;
     output_insert_ok := true;
     plan_update_ok := true |}.

Definition svg_upload_fails : UploadEnv :=
  {| plan_insert_reply := Some p1;
     stray_fetch_reply := Throw TypeError;
     raster_upload_ok := true;
     worker_reply := HttpReply 200 (Some sample_json);
     svg_upload_ok := false;
     output_insert_ok := true;
     plan_update_ok := true |}.

Definition big_upload : Component :=
  {| user := Some alice; file := Some seven_page_pdf; pxPerFt := Finite false 12 2;
     preview := JNull; originalImg := None |}.

Definition image_upload : Component :=
  {| user := Some alice; file := Some broken_png; pxPerFt := Finite false 12 2;
     preview := JNull; originalImg := None |}.

(** A world in which bob already has a plan with its raster in the bucket. *)
Definition bobs_world : World :=
  {| plans := [plan_p0]; outputs := []; reviews := []; usage_ledger := [];
     storage := {[ ("plans", "user-bob/p0/page-1.png") := FileBlob broken_png ]};
     sent := [] |}.

(** A preview whose metrics object lacks both keys. *)
Definition bare_metrics_page : Component :=
  {| user := Some alice; file := None; pxPerFt := Finite false 12 2;
     preview := JObject [("svg", JString "PHN2Zy8+"); ("metrics", JObject [])];
     originalImg := None |}.


Definition output_p0 : OutputRow :=
  {| out_plan_id := "p0"; out_svg_path := "user-bob/p0/page-1.svg";
     out_dxf_path := None; out_csv_path := None;
     out_metrics := JNull; out_confidence := JNull |}.

(** Two output rows for plan p1 and one for plan p0. *)
Definition three_outputs : World :=
  {| plans := [plan_p0; plan_p1]; outputs := [output_p1; output_p0; output_p1];
     reviews := []; usage_ledger := []; storage := ∅; sent := [] |}.

(** A plan table whose newest row has no output row. *)
Definition no_output_world : World :=
  {| plans := [plan_p0; plan_p1]; outputs := [output_p0]; reviews := [];
     usage_ledger := []; storage := ∅; sent := [] |}.

(** The worker answers with the drawing alone. *)
Definition svg_only_reply : UploadEnv :=
  {| plan_insert_reply := Some p1;
     stray_fetch_reply := Throw TypeError;
     raster_upload_ok := true;
     worker_reply := HttpReply 200 (Some (JObject [("svg", JString "PHN2Zy8+")]));
     svg_upload_ok := true;
     output_insert_ok := true;
     plan_update_ok := true |}.

(* ===================================================================== *)
(** ** The platform on examples *)
(* ===================================================================== *)

Example toString_120_5 : Number_toString (Finite false 1205 3) = "120.5".
Proof. reflexivity. Qed.

Example toString_34 : Number_toString (Finite false 34 2) = "34".
Proof. reflexivity. Qed.

Example toString_small : Number_toString (Finite false 15 (-6)) = "1.5e-7".
Proof. reflexivity. Qed.

Example toString_frac : Number_toString (Finite true 5 (-2)) = "-0.005".
Proof. reflexivity. Qed.

Example toString_big : Number_toString (Finite false 1 22) = "1e+21".
Proof. reflexivity. Qed.

Example atob_svg : atob "PHN2Zy8+" = Normal "<svg/>".
Proof. reflexivity. Qed.

Example atob_undefined : atob "undefined" = Throw InvalidCharacterError.
Proof. reflexivity. Qed.

Example atob_padded : atob "6Q==" = Normal (String (ascii_of_N 233) EmptyString).
Proof. reflexivity. Qed.

Example blob_of_unit_233 : utf8_encode (String (ascii_of_N 233) EmptyString) = [195; 169]%N.
Proof. reflexivity. Qed.

Example decode_svg_of_error_body :
  decode_svg (JObject [("detail", JString "Internal Server Error")])
  = Throw InvalidCharacterError.
Proof. reflexivity. Qed.

(* ===================================================================== *)
(** ** One step of an async body *)
(* ===================================================================== *)

#[local] Arguments fileToPNGDataURL : simpl never.
#[local] Arguments fetch_blob : simpl never.
#[local] Arguments decode_svg : simpl never.
#[local] Arguments csv_text : simpl never.
#[local] Arguments latest : simpl never.
#[local] Arguments utf8_encode : simpl never.
#[local] Arguments Number_toString : simpl never.
#[local] Arguments get : simpl never.
#[local] Arguments truthy : simpl never.
#[local] Arguments String.append : simpl never.

Section Steps.

Context {B : Type} (s : St).

Lemma step_ret {A} (a : A) (k : A -> Async B) : bind (ret a) k s = k a s.
Proof. reflexivity. Qed.

Lemma step_await {A} (a : A) (k : A -> Async B) : bind (await (Normal a)) k s = k a s.
Proof. reflexivity. Qed.

Lemma step_await_throw {A} e (k : A -> Async B) :
  bind (await (Throw e)) k s = (inl (Reject e), s).
Proof. reflexivity. Qed.

Lemma step_plans_insert g uid name n (k : option PlanRow -> Async B) :
  bind (plans_insert (Some g) uid name n) k s
  = k (Some {| plan_id := gen_id g; plan_user_id := uid; plan_name := name;
               plan_page_count := n; plan_status := INITIAL_STATUS;
               plan_created_at := gen_created_at g |})
      {| comp := comp s;
         world := with_plans
                    (fun ps => ps ++ [ {| plan_id := gen_id g; plan_user_id := uid;
                                          plan_name := name; plan_page_count := n;
                                          plan_status := INITIAL_STATUS;
                                          plan_created_at := gen_created_at g |} ])
                    (log (InsertPlan uid name n) (world s)) |}.
Proof. reflexivity. Qed.

Lemma step_plans_insert_error uid name n (k : option PlanRow -> Async B) :
  bind (plans_insert None uid name n) k s
  = k None {| comp := comp s; world := log (InsertPlan uid name n) (world s) |}.
Proof. reflexivity. Qed.

Lemma step_upload bucket path b (k : bool -> Async B) :
  bind (storage_upload true bucket path b) k s
  = k false {| comp := comp s;
               world := with_storage (fun m => <[(bucket, path) := b]> m)
                          (log (Upload bucket path b) (world s)) |}.
Proof. reflexivity. Qed.

Lemma step_upload_error bucket path b (k : bool -> Async B) :
  bind (storage_upload false bucket path b) k s
  = k true {| comp := comp s; world := log (Upload bucket path b) (world s) |}.
Proof. reflexivity. Qed.

Lemma step_setOriginalImg u (k : unit -> Async B) :
  bind (setOriginalImg u) k s
  = k tt {| comp := {| user := user (comp s); file := file (comp s);
                       pxPerFt := pxPerFt (comp s); preview := preview (comp s);
                       originalImg := Some u |};
            world := world s |}.
Proof. reflexivity. Qed.

Lemma step_setPreview json (k : unit -> Async B) :
  bind (setPreview json) k s
  = k tt {| comp := {| user := user (comp s); file := file (comp s);
                       pxPerFt := pxPerFt (comp s); preview := json;
                       originalImg := originalImg (comp s) |};
            world := world s |}.
Proof. reflexivity. Qed.

Lemma step_vectorize status json url px (k : JSValue -> Async B) :
  bind (vectorize_url (HttpReply status (Some json)) url px) k s
  = k json {| comp := comp s; world := log (Vectorize url px) (world s) |}.
Proof. reflexivity. Qed.

Lemma step_vectorize_no_json status url px (k : JSValue -> Async B) :
  bind (vectorize_url (HttpReply status None) url px) k s
  = (inl (Reject SyntaxError),
     {| comp := comp s; world := log (Vectorize url px) (world s) |}).
Proof. reflexivity. Qed.

Lemma step_vectorize_rejected url px (k : JSValue -> Async B) :
  bind (vectorize_url NetworkFailure url px) k s
  = (inl (Reject TypeError),
     {| comp := comp s; world := log (Vectorize url px) (world s) |}).
Proof. reflexivity. Qed.

Lemma step_outputs_insert ok row (k : unit -> Async B) :
  bind (outputs_insert ok row) k s
  = k tt {| comp := comp s;
            world := (if ok then with_outputs (fun os => os ++ [row]) else id)
                       (log (InsertOutput row) (world s)) |}.
Proof. destruct ok; reflexivity. Qed.

Lemma step_plans_update ok pid n st (k : unit -> Async B) :
  bind (plans_update ok pid n st) k s
  = k tt {| comp := comp s;
            world := (if ok then with_plans (map (set_processed pid n st)) else id)
                       (log (UpdatePlan pid n st) (world s)) |}.
Proof. destruct ok; reflexivity. Qed.

Lemma step_select ok (k : option PlanRow -> Async B) :
  bind (plans_select_latest ok) k s
  = k (if ok then latest (plans (world s)) else None)
      {| comp := comp s; world := log SelectLatestPlan (world s) |}.
Proof. destruct ok; reflexivity. Qed.

Lemma step_reviews_insert ok row (k : unit -> Async B) :
  bind (reviews_insert ok row) k s
  = k tt {| comp := comp s;
            world := (if ok then with_reviews (fun rs => rs ++ [row]) else id)
                       (log (InsertReview row) (world s)) |}.
Proof. destruct ok; reflexivity. Qed.

Lemma step_ledger_insert ok row (k : unit -> Async B) :
  bind (usage_ledger_insert ok row) k s
  = k tt {| comp := comp s;
            world := (if ok then with_ledger (fun ls => ls ++ [row]) else id)
                       (log (InsertLedger row) (world s)) |}.
Proof. destruct ok; reflexivity. Qed.

Lemma step_outputs_update ok plan csv (k : unit -> Async B) :
  bind (outputs_update_csv ok plan csv) k s
  = k tt {| comp := comp s;
            world := (if ok then with_outputs (map (set_csv_path plan csv)) else id)
                       (log (UpdateOutputCsv plan csv) (world s)) |}.
Proof. destruct ok; reflexivity. Qed.

End Steps.

Lemma finish_ret e s : finish (ret e s) = (e, comp s, world s).
Proof. reflexivity. Qed.

Lemma finish_exit e s : finish (inl e, s) = (e, comp s, world s).
Proof. reflexivity. Qed.

Create Rewrite HintDb steps.
#[local] Hint Rewrite
  @step_ret @step_await @step_await_throw @step_plans_insert @step_plans_insert_error
  @step_upload @step_upload_error @step_setOriginalImg @step_setPreview
  @step_vectorize @step_vectorize_no_json @step_vectorize_rejected
  @step_outputs_insert @step_plans_update @step_select @step_reviews_insert
  @step_ledger_insert @step_outputs_update finish_ret finish_exit : steps.

(** Run the body as far as the collaborators' answers are known. *)
Ltac go :=
  repeat (progress (cbn beta iota zeta delta [comp world plan_id]; autorewrite with steps)).

Lemma world_ext (w1 w2 : World) :
  plans w1 = plans w2 -> outputs w1 = outputs w2 -> reviews w1 = reviews w2 ->
  usage_ledger w1 = usage_ledger w2 -> storage w1 = storage w2 -> sent w1 = sent w2 ->
  w1 = w2.
Proof. destruct w1, w2. cbn. intros; subst; reflexivity. Qed.

(* ===================================================================== *)
(** ** handleUpload *)
(* ===================================================================== *)

Lemma handleUpload_guard env c w :
  user c = None \/ file c = None ->
  run (handleUpload env) c w = (Guard, c, w).
Proof.
  intros H. unfold run, handleUpload. cbn [comp world].
  destruct (user c) as [u|], (file c) as [f|]; try reflexivity.
  destruct H; discriminate.
Qed.

Lemma get_total json k v :
  get json k = Normal v -> forall k', get json k' = Normal (field json k').
Proof.
  unfold field, get. destruct json; try discriminate; intros _ k';
    try reflexivity.
  destruct (own_property k' props); reflexivity.
Qed.

Lemma decode_svg_get json svg :
  decode_svg json = Normal svg -> forall k, get json k = Normal (field json k).
Proof.
  unfold decode_svg, and_then. intros H k.
  destruct (get json "svg") eqn:E; [|discriminate].
  eapply get_total; eassumption.
Qed.

(** The world a run leaves when it gets past the SVG upload. *)
Lemma handleUpload_to_the_end env c w u f g urls blob json svg :
  Reaches_end env c u f g urls blob json svg ->
  exists c' w',
    run (handleUpload env) c w = (Alert "Processed. Review below.", c', w')
    /\ plans w' = (if plan_update_ok env
                   then map (set_processed (gen_id g) (length urls) "processed")
                   else fun ps => ps) (plans w ++ [inserted_plan u f g])
    /\ outputs w' = outputs w ++ (if output_insert_ok env then [output_row u g json] else [])
    /\ reviews w' = reviews w
    /\ usage_ledger w' = usage_ledger w
    /\ storage w' = <[("outputs", object_path u (gen_id g) "svg") :=
                        TextBlob "image/svg+xml" (utf8_encode svg)]>
                     (<[("plans", object_path u (gen_id g) "png") := blob]> (storage w))
    /\ sent w' = sent w ++ upload_requests c u f g urls blob json svg
    /\ preview c' = json.
Proof.
  intros [[Hu Hf Hg Hr Hb Hro] [st Hw] Hd Hso].
  unfold run, handleUpload. cbn [comp world]. rewrite Hu, Hf, Hg. go.
  rewrite Hr. go. rewrite Hb. go. rewrite Hro. go. rewrite Hw. go.
  rewrite Hd. go. rewrite Hso. go.
  rewrite !(decode_svg_get _ _ Hd). go.
  eexists _, _. split; [reflexivity|].
  destruct (output_insert_ok env), (plan_update_ok env); cbn;
    repeat split; rewrite ?app_nil_r, <- ?app_assoc; reflexivity.
Qed.

Lemma handleUpload_end_inv env c w c' w' :
  run (handleUpload env) c w = (Alert "Processed. Review below.", c', w') ->
  exists u f g urls blob json svg, Reaches_end env c u f g urls blob json svg.
Proof.
  unfold run, handleUpload. cbn [comp world].
  destruct (user c) as [u|] eqn:Hu; [|discriminate].
  destruct (file c) as [f|] eqn:Hf; [|discriminate].
  destruct (plan_insert_reply env) as [g|] eqn:Hg; go; [|discriminate].
  destruct (fileToPNGDataURL f) as [urls|] eqn:Hr; go; [|discriminate].
  destruct (fetch_blob (stray_fetch_reply env) (head urls)) as [blob|] eqn:Hb; go;
    [|discriminate].
  destruct (raster_upload_ok env) eqn:Hro; go; [|discriminate].
  destruct (worker_reply env) as [|st [json|]] eqn:Hw; go;
    [discriminate| |discriminate].
  destruct (decode_svg json) as [svg|] eqn:Hd; go; [|discriminate].
  destruct (svg_upload_ok env) eqn:Hso; go; [|discriminate].
  intros _. exists u, f, g, urls, blob, json, svg.
  repeat split; eauto.
Qed.

Lemma filter_none {A} (P : A -> Prop) `{!forall x, Decision (P x)} (l : list A) :
  (forall x, x ∈ l -> ~ P x) -> filter P l = [].
Proof.
  induction l as [|a l IH]; intros Hall; [reflexivity|].
  rewrite filter_cons_False by (apply Hall; left).
  apply IH. intros x Hx. apply Hall. right. exact Hx.
Qed.

Lemma map_set_processed_other id n st (ps : list PlanRow) :
  (forall p, p ∈ ps -> plan_id p <> id) -> map (set_processed id n st) ps = ps.
Proof.
  induction ps as [|p ps IH]; intros H; [reflexivity|].
  cbn [map]. rewrite IH by (intros q Hq; apply H; right; exact Hq).
  unfold set_processed.
  destruct (String.eqb_spec (plan_id p) id) as [E|_]; [|reflexivity].
  exfalso. apply (H p); [left|exact E].
Qed.

Lemma set_processed_hit id n st p :
  plan_id p = id ->
  set_processed id n st p
  = {| plan_id := plan_id p; plan_user_id := plan_user_id p; plan_name := plan_name p;
       plan_page_count := n; plan_status := st; plan_created_at := plan_created_at p |}.
Proof. intros E. unfold set_processed. rewrite E, String.eqb_refl. reflexivity. Qed.

(** When the two writes whose result the code does not look at are
    honoured and the new id is fresh, a run that reaches the last line
    leaves exactly one output row for the plan and the plan processed with
    the page count of the rasterizer; the status update is the last request,
    right after the output insert. *)
Lemma handleUpload_processed env c w c' w' :
  run (handleUpload env) c w = (Alert "Processed. Review below.", c', w') ->
  output_insert_ok env = true ->
  plan_update_ok env = true ->
  (forall g, plan_insert_reply env = Some g -> fresh_id (gen_id g) w) ->
  exists u f g urls json earlier,
    user c = Some u /\ file c = Some f /\ plan_insert_reply env = Some g
    /\ fileToPNGDataURL f = Normal urls
    /\ outputs_of (gen_id g) w' = [output_row u g json]
    /\ plans_with_id (gen_id g) w'
       = [ {| plan_id := gen_id g; plan_user_id := user_id u; plan_name := file_name f;
              plan_page_count := length urls; plan_status := "processed";
              plan_created_at := gen_created_at g |} ]
    /\ sent w' = sent w ++ earlier ++
                 [InsertOutput (output_row u g json);
                  UpdatePlan (gen_id g) (length urls) "processed"].
Proof.
  intros Hrun Hins Hupd Hfresh.
  destruct (handleUpload_end_inv _ _ _ _ _ Hrun)
    as (u & f & g & urls & blob & json & svg & R).
  destruct (handleUpload_to_the_end env c w _ _ _ _ _ _ _ R)
    as (c2 & w2 & Hrun2 & Hp & Ho & _ & _ & _ & Hs & _).
  rewrite Hrun in Hrun2. injection Hrun2 as <- <-.
  rewrite Hins in Ho. rewrite Hupd in Hp.
  destruct R as [[Hu Hf Hg Hr Hb Hro] _ _ _].
  destruct (Hfresh g Hg) as [Fp Fo].
  exists u, f, g, urls, json.
  eexists (firstn 4 (upload_requests c u f g urls blob json svg)).
  repeat split; try assumption.
  - unfold outputs_of. rewrite Ho, filter_app, (filter_none _ _ Fo).
    rewrite filter_cons_True by reflexivity. reflexivity.
  - unfold plans_with_id. rewrite Hp, map_app, (map_set_processed_other _ _ _ _ Fp).
    rewrite filter_app, (filter_none _ _ Fp).
    change (map ?h [?x]) with [h x].
    rewrite set_processed_hit by reflexivity.
    rewrite filter_cons_True by reflexivity. reflexivity.
Qed.

Example handleUpload_processed_all_ok :
  exists c' w',
    run (handleUpload all_ok) fresh_page empty_world
    = (Alert "Processed. Review below.", c', w')
    /\ length (outputs_of "p1" w') = 1%nat
    /\ plan_status <$> plans_with_id "p1" w' = ["processed"]
    /\ plan_page_count <$> plans_with_id "p1" w' = [3%nat].
Proof.
  destruct (run (handleUpload all_ok) fresh_page empty_world) as [[e c'] w'] eqn:Hrun.
  assert (He : e = Alert "Processed. Review below.").
  { apply (f_equal (fun r => fst (fst r))) in Hrun. vm_compute in Hrun. congruence. }
  subst e.
  destruct (handleUpload_processed all_ok fresh_page empty_world c' w' Hrun eq_refl eq_refl)
    as (u & f & g & urls & json & earlier & Hu & Hf & Hg & Hr & Ho & Hp & _).
  { intros g _. split; intros x Hx; inversion Hx. }
  injection Hu as <-. injection Hf as <-. injection Hg as <-.
  vm_compute in Hr. injection Hr as <-.
  exists c', w'. split; [reflexivity|].
  change (gen_id p1) with "p1" in Ho, Hp. rewrite Ho, Hp.
  repeat split; reflexivity.
Qed.

(** C1 (evaluated where it breaks): with the [outputs] insert turned down by
    the database, [handleUpload] still runs to its last line, announces
    "Processed" and marks the plan [processed] with its page count, although
    no output row exists for the plan. *)
Theorem processed_without_output_row :
  exists c' w',
    run (handleUpload insert_rejected) fresh_page empty_world
    = (Alert "Processed. Review below.", c', w')
    /\ outputs_of "p1" w' = []
    /\ plans w' = [ {| plan_id := "p1"; plan_user_id := "alice"; plan_name := "plan.pdf";
                       plan_page_count := 3; plan_status := "processed";
                       plan_created_at := 100 |} ]
    /\ last (sent w') = Some (UpdatePlan "p1" 3 "processed").
Proof.
  eexists _, _. split; [vm_compute; reflexivity|].
  repeat split; reflexivity.
Qed.

(** C2 (as stated, refuted): a 500 answer whose body decodes is processed
    like a success: an output row is written and the plan is marked
    processed. *)
Lemma non_2xx_reply_is_processed :
  worker_reply server_error = HttpReply 500 (Some sample_json) /\
  exists c' w',
    run (handleUpload server_error) fresh_page empty_world
    = (Alert "Processed. Review below.", c', w')
    /\ length (outputs_of "p1" w') = 1%nat
    /\ plan_status <$> plans w' = ["processed"].
Proof.
  split; [reflexivity|].
  eexists _, _. split; [vm_compute; reflexivity|].
  split; reflexivity.
Qed.

(** C2 (amended): when the worker call fails in a way the page observes,
    the run stops with the exception of the failing step; no output row is
    written, the plan row stays as inserted (initial status, page count 0),
    the first-page raster stays in the [plans] bucket, and nothing is sent
    after the one request to the worker. *)
Theorem observed_worker_failure_aborts env c w u f g urls blob e :
  Reaches_worker env c u f g urls blob ->
  worker_failure (worker_reply env) e ->
  exists c' w',
    run (handleUpload env) c w = (Reject e, c', w')
    /\ outputs w' = outputs w
    /\ plans w' = plans w ++ [inserted_plan u f g]
    /\ plan_status (inserted_plan u f g) <> "processed"
    /\ plan_page_count (inserted_plan u f g) = 0%nat
    /\ storage w' !! ("plans", object_path u (gen_id g) "png") = Some blob
    /\ sent w' = sent w ++
         [ InsertPlan (user_id u) (file_name f) 0;
           Upload "plans" (object_path u (gen_id g) "png") blob;
           Vectorize (PublicUrl "plans" (object_path u (gen_id g) "png"))
                     (Number_toString (pxPerFt c)) ].
Proof.
  intros [Hu Hf Hg Hr Hb Hro] Hfail.
  unfold run, handleUpload. cbn [comp world]. rewrite Hu, Hf, Hg. go.
  rewrite Hr. go. rewrite Hb. go. rewrite Hro. go.
  destruct (worker_reply env) as [|st [json|]]; cbn in Hfail; go;
    [subst e|rewrite Hfail; go|subst e];
    (eexists _, _; split; [reflexivity|]; cbn;
     repeat split; try reflexivity; try discriminate;
     [apply lookup_insert_eq | rewrite <- !app_assoc; reflexivity]).
Qed.

Lemma observed_worker_failure_aborts_witness :
  exists c' w',
    run (handleUpload server_error_detail) fresh_page empty_world
    = (Reject InvalidCharacterError, c', w')
    /\ outputs w' = []
    /\ storage w' !! ("plans", "user-alice/p1/page-1.png") = Some (PngBlob {| vp_page := 11%N; vp_scale := Finite false 2 1 |}).
Proof.
  destruct (observed_worker_failure_aborts server_error_detail fresh_page empty_world
              alice plan_pdf p1 (png_of <$> [11; 12; 13]%N)
              (PngBlob {| vp_page := 11%N; vp_scale := Finite false 2 1 |})
              InvalidCharacterError)
    as (c' & w' & Hrun & Ho & _ & _ & _ & Hs & _).
  - split; reflexivity.
  - reflexivity.
  - exists c', w'. repeat split; assumption.
Defined.

(** C9: when the insert of the plan row fails, [handleUpload] reports
    "DB plan error" and stops: that insert is the only request sent (no
    upload, no call to the worker, no output or ledger write), and no table
    and no bucket has changed. *)
Theorem plan_insert_failure_stops_everything env c w u f :
  user c = Some u -> file c = Some f -> plan_insert_reply env = None ->
  exists w',
    run (handleUpload env) c w = (Alert "DB plan error", c, w')
    /\ sent w' = sent w ++ [InsertPlan (user_id u) (file_name f) 0]
    /\ plans w' = plans w /\ outputs w' = outputs w /\ reviews w' = reviews w
    /\ usage_ledger w' = usage_ledger w /\ storage w' = storage w.
Proof.
  intros Hu Hf Hr. unfold run, handleUpload. cbn [comp world]. rewrite Hu, Hf, Hr. go.
  eexists. split; [reflexivity|]. repeat split; reflexivity.
Qed.

Lemma plan_insert_failure_stops_everything_witness :
  exists w',
    run (handleUpload plan_insert_fails) fresh_page empty_world
    = (Alert "DB plan error", fresh_page, w')
    /\ sent w' = [InsertPlan "alice" "plan.pdf" 0]
    /\ storage w' = ∅.
Proof.
  destruct (plan_insert_failure_stops_everything plan_insert_fails fresh_page
              empty_world alice plan_pdf eq_refl eq_refl eq_refl)
    as (w' & Hrun & Hs & _ & _ & _ & _ & Hst).
  exists w'. repeat split; assumption.
Defined.

(* ===================================================================== *)
(** ** approveExport *)
(* ===================================================================== *)

Lemma approveExport_guard env c w :
  user c = None \/ truthy (preview c) = false ->
  run (approveExport env) c w = (Guard, c, w).
Proof.
  intros H. unfold run, approveExport. cbn [comp world].
  destruct (user c) as [u|].
  - destruct H as [H|H]; [discriminate|]. rewrite H. reflexivity.
  - reflexivity.
Qed.

(** C10: with no signed-in user, or without a file ([handleUpload]) or a
    preview ([approveExport]), the handler returns at its first line: the
    page state and the world are unchanged and no request is sent. *)
Theorem guards_are_noops c w :
  (forall env, user c = None \/ file c = None ->
     run (handleUpload env) c w = (Guard, c, w)) /\
  (forall env, user c = None \/ truthy (preview c) = false ->
     run (approveExport env) c w = (Guard, c, w)).
Proof.
  split; intros env H; [apply handleUpload_guard | apply approveExport_guard]; exact H.
Qed.

Lemma guards_are_noops_witness :
  run (handleUpload all_ok) signed_out empty_world = (Guard, signed_out, empty_world) /\
  run (approveExport approve_ok) fresh_page empty_world = (Guard, fresh_page, empty_world).
Proof.
  split.
  - apply (proj1 (guards_are_noops signed_out empty_world) all_ok). left. reflexivity.
  - apply (proj2 (guards_are_noops fresh_page empty_world) approve_ok). right. reflexivity.
Defined.

Lemma latest_cons p rest :
  latest (p :: rest)
  = match latest rest with
    | Some q => if plan_created_at p <? plan_created_at q then Some q else Some p
    | None => Some p
    end.
Proof. reflexivity. Qed.

Lemma latest_none ps : latest ps = None <-> ps = [].
Proof.
  split.
  - destruct ps as [|p rest]; [reflexivity|]. rewrite latest_cons.
    destruct (latest rest) as [q|]; [|discriminate].
    destruct (plan_created_at p <? plan_created_at q); discriminate.
  - intros ->. reflexivity.
Qed.

Lemma latest_is_newest ps p :
  latest ps = Some p ->
  p ∈ ps /\ forall q, q ∈ ps -> plan_created_at q <= plan_created_at p.
Proof.
  revert p. induction ps as [|a rest IH]; intros p H; [discriminate|].
  rewrite latest_cons in H.
  destruct (latest rest) as [q|] eqn:E.
  - destruct (IH q eq_refl) as [Hin Hmax].
    destruct (Z.ltb_spec (plan_created_at a) (plan_created_at q)) as [Hlt|Hge];
      injection H as <-.
    + split; [right; exact Hin|].
      intros r Hr. apply elem_of_cons in Hr as [->|Hr]; [lia|auto].
    + split; [left|].
      intros r Hr. apply elem_of_cons in Hr as [->|Hr]; [lia|].
      specialize (Hmax r Hr). lia.
  - injection H as <-. apply latest_none in E. subst rest.
    split; [left|].
    intros r Hr. apply elem_of_cons in Hr as [->|Hr]; [lia|].
    inversion Hr.
Qed.

(** A run that finds a plan, in closed form. *)
Lemma approveExport_resolved env c w u p :
  Resolves env c w u p ->
  run (approveExport env) c w
  = (fst (export_step env c u p (recorded env u p w)), c,
     snd (export_step env c u p (recorded env u p w))).
Proof.
  intros [Hu Ht Hs Hl]. unfold run, approveExport, export_step, recorded.
  cbn [comp world]. rewrite Hu, Ht. go. rewrite Hs. cbn [plans log]. rewrite Hl. go.
  destruct (csv_text (preview c)) as [csv|e]; go;
    destruct (review_insert_ok env), (ledger_insert_ok env);
    try destruct (csv_upload_ok env); go;
    try destruct (output_update_ok env);
    (cbn [fst snd]; f_equal; apply world_ext; cbn;
     rewrite <- ?app_assoc, ?app_nil_r; reflexivity).
Qed.

Lemma credits_app l1 l2 : credits (l1 ++ l2) = credits l1 + credits l2.
Proof.
  unfold credits. induction l1 as [|a l1 IH]; cbn; [reflexivity|].
  rewrite IH. lia.
Qed.

Lemma export_step_keeps env c u p w1 :
  let w' := snd (export_step env c u p w1) in
  plans w' = plans w1 /\ reviews w' = reviews w1 /\ usage_ledger w' = usage_ledger w1.
Proof.
  unfold export_step.
  destruct (csv_text (preview c)); cbn; [|auto].
  destruct (csv_upload_ok env); cbn; [|auto].
  destruct (output_update_ok env); cbn; auto.
Qed.

Lemma approveExport_ledger env c w u p :
  Resolves env c w u p ->
  exists e w',
    run (approveExport env) c w = (e, c, w')
    /\ plans w' = plans w
    /\ usage_ledger w'
       = usage_ledger w ++ (if ledger_insert_ok env then [debit u p] else []).
Proof.
  intros R. rewrite (approveExport_resolved _ _ _ _ _ R).
  eexists _, _. split; [reflexivity|].
  destruct (export_step_keeps env c u p (recorded env u p w)) as (Hp & _ & Hl).
  split; [exact Hp|exact Hl].
Qed.

Lemma balance_after_debit u p (ls : list LedgerRow) :
  credits (filter (fun l => ledger_user_id l = user_id u) (ls ++ [debit u p]))
  = credits (filter (fun l => ledger_user_id l = user_id u) ls) - 1.
Proof.
  rewrite filter_app, credits_app.
  rewrite filter_cons_True by reflexivity.
  cbn. lia.
Qed.

(** C3: once [approveExport] has found the plan, the one ledger insert it
    sends is the row [export_approved, -1] for the user and that plan, with
    no look at the ledger; when the database takes the insert, the ledger
    grows by exactly that row, and over any number of such approvals the
    user's balance falls by their number. *)
Theorem every_approval_debits_one_credit c w u p :
  user c = Some u -> truthy (preview c) = true -> latest (plans w) = Some p ->
  (forall env, select_ok env = true -> ledger_insert_ok env = true ->
     exists e w1,
       run (approveExport env) c w = (e, c, w1)
       /\ usage_ledger w1 = usage_ledger w ++ [debit u p]
       /\ ledger_event (debit u p) = "export_approved"
       /\ ledger_delta_credits (debit u p) = -1)
  /\
  (forall envs,
     Forall (fun env => select_ok env = true /\ ledger_insert_ok env = true) envs ->
     let w' := snd (approvals envs c w) in
     usage_ledger w' = usage_ledger w ++ replicate (length envs) (debit u p)
     /\ balance (user_id u) w' = balance (user_id u) w - Z.of_nat (length envs)).
Proof.
  intros Hu Ht Hl. split.
  - intros env Hs Hok.
    destruct (approveExport_ledger env c w u p) as (e & w1 & Hrun & _ & Hled).
    { split; assumption. }
    rewrite Hok in Hled. exists e, w1. repeat split; assumption.
  - intros envs. revert w Hl.
    induction envs as [|env rest IH]; intros w Hl Hall.
    + cbn. rewrite app_nil_r. split; [reflexivity|lia].
    + apply Forall_cons in Hall as [[Hs Hok] Hrest].
      destruct (approveExport_ledger env c w u p) as (e & w1 & Hrun & Hp & Hled).
      { split; assumption. }
      rewrite Hok in Hled.
      cbn [approvals]. rewrite Hrun.
      assert (Hl1 : latest (plans w1) = Some p) by (rewrite Hp; exact Hl).
      destruct (IH w1 Hl1 Hrest) as [IHl IHb].
      cbn zeta in IHl, IHb |- *. split.
      * rewrite IHl, Hled, <- app_assoc. reflexivity.
      * rewrite IHb. unfold balance. rewrite Hled, balance_after_debit.
        cbn [length]. lia.
Qed.

Lemma every_approval_debits_one_credit_witness :
  let w' := snd (approvals [approve_ok; csv_upload_fails; approve_ok]
                   reviewed_page two_plans) in
  usage_ledger w' = replicate 3 (debit alice plan_p1)
  /\ balance "alice" w' = -3.
Proof.
  exact (proj2 (every_approval_debits_one_credit reviewed_page two_plans alice plan_p1
                  eq_refl eq_refl eq_refl)
           [approve_ok; csv_upload_fails; approve_ok]
           ltac:(repeat constructor)).
Defined.

(** C4 (as stated, refuted): with no plan in existence the call does not
    fail.  The handler returns at [if (!latestPlan) return]: the promise is
    fulfilled, nothing is alerted and nothing is thrown, so the caller sees
    what it sees after the return of the first line on a signed-out page. *)
Lemma no_plan_is_a_silent_return :
  plans empty_world = []
  /\ outcome (run (approveExport approve_ok) reviewed_page empty_world).1.1
     = Fulfilled None
  /\ (forall x, outcome (run (approveExport approve_ok) reviewed_page empty_world).1.1
                <> Rejected x)
  /\ (forall msg, outcome (run (approveExport approve_ok) reviewed_page empty_world).1.1
                  <> Fulfilled (Some msg))
  /\ outcome (run (approveExport approve_ok) reviewed_page empty_world).1.1
     = outcome (run (approveExport approve_ok) signed_out empty_world).1.1.
Proof.
  split; [reflexivity|]. split; [reflexivity|].
  split; [intros x; discriminate|]. split; [intros msg; discriminate|reflexivity].
Qed.

(** C4 (amended): [approveExport] takes no plan id; its target is the row
    of the whole [plans] table with the greatest [created_at], whoever owns
    it, and the review and the debit are sent for that row.  With an empty
    [plans] table the handler returns silently at [if (!latestPlan) return]:
    the promise is fulfilled without an alert, the query is the only
    request, and no review and no ledger row is written. *)
Theorem approval_targets_latest_plan env c w u :
  user c = Some u -> truthy (preview c) = true ->
  (plans w = [] ->
     exists w',
       run (approveExport env) c w = (NoLatestPlan, c, w')
       /\ outcome (run (approveExport env) c w).1.1 = Fulfilled None
       /\ sent w' = sent w ++ [SelectLatestPlan]
       /\ reviews w' = reviews w /\ usage_ledger w' = usage_ledger w
       /\ outputs w' = outputs w /\ storage w' = storage w)
  /\
  (select_ok env = true -> plans w <> [] ->
     exists p e w' later,
       latest (plans w) = Some p
       /\ p ∈ plans w
       /\ (forall q, q ∈ plans w -> plan_created_at q <= plan_created_at p)
       /\ run (approveExport env) c w = (e, c, w')
       /\ sent w' = sent w ++ [SelectLatestPlan; InsertReview (approval p);
                               InsertLedger (debit u p)] ++ later).
Proof.
  intros Hu Ht. split.
  - intros Hempty. unfold run, approveExport. cbn [comp world]. rewrite Hu, Ht. go.
    cbn [plans log]. rewrite Hempty.
    destruct (select_ok env); go; eexists; (split; [reflexivity|]);
      repeat split; reflexivity.
  - intros Hs Hne.
    destruct (latest (plans w)) as [p|] eqn:Hl;
      [|apply latest_none in Hl; contradiction].
    destruct (latest_is_newest _ _ Hl) as [Hin Hmax].
    assert (R : Resolves env c w u p) by (split; assumption).
    pose proof (approveExport_resolved _ _ _ _ _ R) as Hrun.
    assert (Hsent : exists later,
      sent (snd (export_step env c u p (recorded env u p w)))
      = sent w ++ [SelectLatestPlan; InsertReview (approval p);
                   InsertLedger (debit u p)] ++ later).
    { unfold export_step.
      destruct (csv_text (preview c)) as [csv|x]; cbn.
      - destruct (csv_upload_ok env); cbn.
        + destruct (output_update_ok env); cbn; eexists;
            rewrite <- !app_assoc; reflexivity.
        + eexists. rewrite <- !app_assoc. reflexivity.
      - exists []. reflexivity. }
    destruct Hsent as [later Hsent].
    exists p. eexists _, _. exists later.
    split; [reflexivity|]. split; [exact Hin|]. split; [exact Hmax|].
    split; [exact Hrun|exact Hsent].
Qed.

Lemma approval_targets_latest_plan_witness :
  (exists w',
     run (approveExport approve_ok) reviewed_page empty_world
     = (NoLatestPlan, reviewed_page, w')
     /\ outcome (run (approveExport approve_ok) reviewed_page empty_world).1.1
        = Fulfilled None
     /\ reviews w' = [] /\ usage_ledger w' = [])
  /\
  (exists p e w' later,
     latest (plans two_plans) = Some p
     /\ plan_user_id p = "alice"
     /\ run (approveExport approve_ok) bobs_page two_plans = (e, bobs_page, w')
     /\ sent w' = [SelectLatestPlan; InsertReview (approval p);
                   InsertLedger (debit bob p)] ++ later).
Proof.
  split.
  - destruct (proj1 (approval_targets_latest_plan approve_ok reviewed_page empty_world
                       alice eq_refl eq_refl) eq_refl)
      as (w' & Hrun & Hout & _ & Hr & Hl & _).
    exists w'. repeat split; assumption.
  - destruct (proj2 (approval_targets_latest_plan approve_ok bobs_page two_plans
                       bob eq_refl eq_refl) eq_refl ltac:(discriminate))
      as (p & e & w' & later & Hl & _ & _ & Hrun & Hs).
    exists p, e, w', later. repeat split; try assumption.
    vm_compute in Hl. injection Hl as <-. reflexivity.
Defined.

(** C5: when the upload of the CSV fails, [approveExport] ends without
    sending the update of [csv_path]: the output rows and the bucket are as
    before the call, while whatever the review insert and the ledger insert
    wrote stays, so an honoured review and an honoured debit of -1 are in
    the state the failed call leaves. *)
Theorem failed_csv_upload_keeps_review_and_debit env c w u p csv :
  Resolves env c w u p ->
  csv_text (preview c) = Normal csv ->
  csv_upload_ok env = false ->
  exists w',
    run (approveExport env) c w = (CsvNotStored, c, w')
    /\ outputs w' = outputs w
    /\ storage w' = storage w
    /\ sent w' = sent w ++ [SelectLatestPlan; InsertReview (approval p);
                            InsertLedger (debit u p);
                            Upload "outputs" (object_path u (plan_id p) "csv") (csv_blob csv)]
    /\ reviews w' = reviews w ++ (if review_insert_ok env then [approval p] else [])
    /\ usage_ledger w' = usage_ledger w ++ (if ledger_insert_ok env then [debit u p] else [])
    /\ (review_insert_ok env = true -> approval p ∈ reviews w')
    /\ (ledger_insert_ok env = true ->
          debit u p ∈ usage_ledger w' /\ ledger_delta_credits (debit u p) = -1).
Proof.
  intros R Hcsv Hup.
  rewrite (approveExport_resolved _ _ _ _ _ R).
  unfold export_step. rewrite Hcsv, Hup. cbn.
  eexists. split; [reflexivity|]. cbn.
  split; [reflexivity|]. split; [reflexivity|].
  split; [rewrite <- app_assoc; reflexivity|].
  split; [reflexivity|]. split; [reflexivity|]. split.
  - intros Hok. rewrite Hok. apply elem_of_app. right. left.
  - intros Hok. rewrite Hok. split; [|reflexivity].
    apply elem_of_app. right. left.
Qed.

Lemma failed_csv_upload_keeps_review_and_debit_witness :
  exists w',
    run (approveExport csv_upload_fails) reviewed_page two_plans
    = (CsvNotStored, reviewed_page, w')
    /\ outputs w' = [output_p1]
    /\ reviews w' = [approval plan_p1]
    /\ usage_ledger w' = [debit alice plan_p1].
Proof.
  destruct (failed_csv_upload_keeps_review_and_debit csv_upload_fails reviewed_page
              two_plans alice plan_p1
              ("metric,value" +:+ LF +:+ "walls_len_ft,120.5" +:+ LF
               +:+ "line_count,34" +:+ LF))
    as (w' & Hrun & Ho & _ & _ & Hr & Hl & _).
  - split; reflexivity.
  - reflexivity.
  - reflexivity.
  - exists w'. repeat split; assumption.
Defined.

(* ===================================================================== *)
(** ** The CSV artifact *)
(* ===================================================================== *)

Lemma utf8_encode_app s1 s2 :
  utf8_encode (s1 +:+ s2) = utf8_encode s1 ++ utf8_encode s2.
Proof.
  induction s1 as [|a s1 IH]; [reflexivity|].
  change (String a s1 +:+ s2) with (String a (s1 +:+ s2)).
  change (utf8_encode (String a ?s)) with (utf8_of_unit a ++ utf8_encode s).
  rewrite IH, app_assoc. reflexivity.
Qed.

Lemma csv_text_of preview m v1 v2 s1 s2 :
  get preview "metrics" = Normal m ->
  get m "walls_len_ft" = Normal v1 -> ToString v1 = Normal s1 ->
  get m "line_count" = Normal v2 -> ToString v2 = Normal s2 ->
  csv_text preview
  = Normal ("metric,value" +:+ LF +:+ "walls_len_ft," +:+ s1 +:+ LF
            +:+ "line_count," +:+ s2 +:+ LF).
Proof.
  intros Hm H1 T1 H2 T2. unfold csv_text, and_then.
  rewrite Hm, H1, T1, H2, T2. reflexivity.
Qed.


Lemma ascii_text_cons c s :
  ascii_text (String c s) <-> (N_of_ascii c < 128)%N /\ ascii_text s.
Proof.
  unfold ascii_text. cbn [list_ascii_of_string].
  apply (Forall_cons (fun x => (N_of_ascii x < 128)%N)).
Qed.

Lemma ascii_text_app s1 s2 : ascii_text s1 -> ascii_text s2 -> ascii_text (s1 +:+ s2).
Proof.
  intros H1 H2. induction s1 as [|c s1 IH]; [exact H2|].
  apply ascii_text_cons in H1 as [Hc H1].
  change (String c s1 +:+ s2) with (String c (s1 +:+ s2)).
  apply ascii_text_cons. split; [exact Hc|apply IH; exact H1].
Qed.

Lemma ascii_text_substring s : forall n m, ascii_text s -> ascii_text (substring n m s).
Proof.
  induction s as [|c s IH]; intros n m H.
  - destruct n, m; constructor.
  - apply ascii_text_cons in H as [Hc H].
    destruct n as [|n]; cbn [substring].
    + destruct m as [|m]; [constructor|].
      apply ascii_text_cons. split; [exact Hc|apply IH; exact H].
    + apply IH. exact H.
Qed.

Lemma ascii_text_zeros m : ascii_text (zeros m).
Proof.
  induction m as [|m IH]; [constructor|].
  cbn [zeros]. apply ascii_text_cons. split; [reflexivity|exact IH].
Qed.

Lemma ascii_text_pretty_N_go x : forall s, ascii_text s -> ascii_text (pretty_N_go x s).
Proof.
  induction (N.lt_wf_0 x) as [x _ IH]; intros s Hs.
  destruct (N.eq_dec x 0%N) as [->|Hx]; [exact Hs|].
  rewrite pretty_N_go_step by lia.
  apply IH; [apply N.div_lt; lia|].
  apply ascii_text_cons. split; [|exact Hs].
  unfold pretty_N_char. repeat case_match; reflexivity.
Qed.

Lemma ascii_text_pretty_N (x : N) : ascii_text (pretty x).
Proof.
  unfold pretty, pretty_N. case_decide.
  - apply ascii_text_cons. split; [reflexivity|constructor].
  - apply ascii_text_pretty_N_go. constructor.
Qed.

Lemma ascii_text_digits s n : ascii_text (digits_toString s n).
Proof.
  unfold digits_toString.
  assert (Hds : ascii_text (pretty s)) by apply (ascii_text_pretty_N (Npos s)).
  assert (Hexp : ascii_text ((if n <? 0 then "-" else "+") +:+ pretty (Z.abs (n - 1)))).
  { apply ascii_text_app.
    - destruct (n <? 0); (apply ascii_text_cons; split; [reflexivity|constructor]).
    - destruct (n - 1) as [|e|e]; cbn [Z.abs];
        [apply (ascii_text_pretty_N 0%N) | apply (ascii_text_pretty_N (Npos e))..]. }
  assert (Hdot : forall t, ascii_text t -> ascii_text ("." +:+ t)).
  { intros t Ht. apply ascii_text_cons. split; [reflexivity|exact Ht]. }
  assert (He : forall t, ascii_text t -> ascii_text ("e" +:+ t)).
  { intros t Ht. apply ascii_text_cons. split; [reflexivity|exact Ht]. }
  destruct ((Z.of_nat (String.length (pretty s)) <=? n) && (n <=? 21)).
  { apply ascii_text_app; [exact Hds|apply ascii_text_zeros]. }
  destruct ((0 <? n) && (n <=? 21)).
  { apply ascii_text_app; [apply ascii_text_substring; exact Hds|].
    apply Hdot. apply ascii_text_substring. exact Hds. }
  destruct ((-6 <? n) && (n <=? 0)).
  { apply ascii_text_cons. split; [reflexivity|]. apply Hdot.
    apply ascii_text_app; [apply ascii_text_zeros|exact Hds]. }
  destruct (pretty s) as [|d rest]; [constructor|].
  apply ascii_text_cons in Hds as [Hd Hrest].
  destruct rest as [|d' rest].
  - apply ascii_text_cons. split; [exact Hd|]. apply He. exact Hexp.
  - apply ascii_text_cons. split; [exact Hd|]. apply Hdot.
    apply ascii_text_app; [exact Hrest|]. apply He. exact Hexp.
Qed.

Lemma ascii_text_Number x : ascii_text (Number_toString x).
Proof.
  destruct x as [|[]| |[] s n]; cbn [Number_toString];
    try apply ascii_text_digits;
    try (apply ascii_text_cons; split; [reflexivity|apply ascii_text_digits]);
    unfold ascii_text; cbn [list_ascii_of_string]; repeat constructor.
Qed.

Lemma utf8_of_ascii_text s : ascii_text s -> utf8_encode s = code_units s.
Proof.
  induction s as [|c s IH]; intros H; [reflexivity|].
  apply ascii_text_cons in H as [Hc H].
  change (utf8_encode (String c s)) with (utf8_of_unit c ++ utf8_encode s).
  change (code_units (String c s)) with (N_of_ascii c :: code_units s).
  rewrite IH by exact H. unfold utf8_of_unit.
  apply N.ltb_lt in Hc. rewrite Hc. reflexivity.
Qed.

(** With numbers for the two metrics, the blob holds the text of the CSV
    character for character. *)
Lemma numeric_csv_is_plain_text preview m x1 x2 :
  get preview "metrics" = Normal m ->
  get m "walls_len_ft" = Normal (JNumber x1) ->
  get m "line_count" = Normal (JNumber x2) ->
  let csv := "metric,value" +:+ LF +:+ "walls_len_ft," +:+ Number_toString x1 +:+ LF
             +:+ "line_count," +:+ Number_toString x2 +:+ LF in
  csv_text preview = Normal csv /\ utf8_encode csv = code_units csv.
Proof.
  intros Hm H1 H2 csv. split.
  - apply (csv_text_of preview m (JNumber x1) (JNumber x2)); auto.
  - apply utf8_of_ascii_text. unfold csv.
    repeat (apply ascii_text_app;
            [first [ apply ascii_text_Number
                   | unfold ascii_text; cbn [list_ascii_of_string]; repeat constructor ]|]).
    unfold ascii_text. cbn. repeat constructor.
Qed.

(** C7: the CSV is the line [metric,value], the line [walls_len_ft,] with
    the first value and the line [line_count,] with the second, each ended
    by one line feed (byte 10), the values written as the language converts
    them to strings; it is stored in the [outputs] bucket as a [text/csv]
    blob under [user-{userId}/{planId}/page-1.csv].  The bytes are written
    out: 109 ... 101 is [metric,value], 119 ... 44 is [walls_len_ft,] and
    108 ... 44 is [line_count,]. *)
Theorem csv_artifact_format env c w u p m v1 v2 s1 s2 :
  Resolves env c w u p ->
  get (preview c) "metrics" = Normal m ->
  get m "walls_len_ft" = Normal v1 -> ToString v1 = Normal s1 ->
  get m "line_count" = Normal v2 -> ToString v2 = Normal s2 ->
  csv_upload_ok env = true ->
  let bytes :=
    ([109; 101; 116; 114; 105; 99; 44; 118; 97; 108; 117; 101; 10]
     ++ [119; 97; 108; 108; 115; 95; 108; 101; 110; 95; 102; 116; 44]
     ++ utf8_encode s1 ++ [10]
     ++ [108; 105; 110; 101; 95; 99; 111; 117; 110; 116; 44]
     ++ utf8_encode s2 ++ [10])%N in
  let path := "user-" +:+ user_id u +:+ "/" +:+ plan_id p +:+ "/page-1.csv" in
  exists w',
    run (approveExport env) c w = (Alert "Approved & exported CSV.", c, w')
    /\ In (Upload "outputs" path (TextBlob "text/csv" bytes)) (sent w')
    /\ storage w' !! ("outputs", path) = Some (TextBlob "text/csv" bytes).
Proof.
  intros R Hm H1 T1 H2 T2 Hup bytes path.
  rewrite (approveExport_resolved _ _ _ _ _ R).
  unfold export_step.
  rewrite (csv_text_of _ _ _ _ _ _ Hm H1 T1 H2 T2), Hup.
  change (object_path u (plan_id p) "csv") with path.
  assert (Hbytes : csv_blob ("metric,value" +:+ LF +:+ "walls_len_ft," +:+ s1 +:+ LF
                             +:+ "line_count," +:+ s2 +:+ LF)
                   = TextBlob "text/csv" bytes).
  { unfold csv_blob, bytes. rewrite !utf8_encode_app. reflexivity. }
  rewrite Hbytes.
  eexists. split; [reflexivity|]. split.
  - destruct (output_update_ok env); cbn [snd sent log with_outputs with_storage recorded];
      rewrite !in_app_iff; cbn [In]; tauto.
  - destruct (output_update_ok env); cbn; apply lookup_insert_eq.
Qed.

Lemma csv_artifact_format_witness :
  exists w',
    run (approveExport approve_ok) reviewed_page two_plans
    = (Alert "Approved & exported CSV.", reviewed_page, w')
    /\ storage w' !! ("outputs", "user-alice/p1/page-1.csv")
       = Some (TextBlob "text/csv"
                 [109; 101; 116; 114; 105; 99; 44; 118; 97; 108; 117; 101; 10;
                  119; 97; 108; 108; 115; 95; 108; 101; 110; 95; 102; 116; 44;
                  49; 50; 48; 46; 53; 10;
                  108; 105; 110; 101; 95; 99; 111; 117; 110; 116; 44;
                  51; 52; 10]%N).
Proof.
  destruct (csv_artifact_format approve_ok reviewed_page two_plans alice plan_p1
              sample_metrics (JNumber (Finite false 1205 3)) (JNumber (Finite false 34 2))
              "120.5" "34")
    as (w' & Hrun & _ & Hst).
  - split; reflexivity.
  - reflexivity.
  - reflexivity.
  - reflexivity.
  - reflexivity.
  - reflexivity.
  - reflexivity.
  - exists w'. split; [exact Hrun|exact Hst].
Defined.

(* ===================================================================== *)
(** ** fileToPNGDataURL *)
(* ===================================================================== *)

Lemma render_pages_spec (pdf : list Page) (todo i : nat) (urls : list Url) :
  (i + todo <= length pdf)%nat ->
  render_pages pdf (S i) todo urls
  = Normal (urls ++ (png_of <$> take todo (drop i pdf))).
Proof.
  revert i urls. induction todo as [|todo IH]; intros i urls Hle.
  - cbn. rewrite app_nil_r. reflexivity.
  - cbn [render_pages getPage].
    destruct (pdf !! i) as [page|] eqn:E.
    + rewrite IH by lia.
      rewrite (drop_S _ _ _ E). cbn [take fmap list_fmap].
      rewrite <- app_assoc. reflexivity.
    + apply lookup_ge_None in E. lia.
Qed.

(** Should pdf.js open a document without pages, the result is the empty
    sequence, and [handleUpload] goes on with [dataUrls[0]] undefined. *)
Lemma zero_page_pdf_gives_no_pages : fileToPNGDataURL zero_page_pdf = Normal [].
Proof. reflexivity. Qed.

(** C6 (as stated, refuted): input that is not a supported document is not
    turned down.  A text file, and a file typed [image/png] whose bytes are
    no image, both come back as a one-element sequence. *)
Lemma unsupported_input_is_not_rejected :
  fileToPNGDataURL notes_txt = Normal [ObjectUrl notes_txt]
  /\ fileToPNGDataURL broken_png = Normal [ObjectUrl broken_png]
  /\ (forall e, fileToPNGDataURL notes_txt <> Throw e)
  /\ (forall e, fileToPNGDataURL broken_png <> Throw e).
Proof. repeat split; try reflexivity; intros e; discriminate. Qed.

(** C6 (amended): for a PDF that pdf.js opens, the result is the first
    [min N 5] pages in order, each rendered through a viewport of scale 2;
    a file of any other type comes back unchanged as a one-element sequence;
    the only failure is pdf.js rejecting the document. *)
Theorem rasterizer_pages f :
  (forall pages,
     file_type f = "application/pdf" -> file_content f = PdfPages pages ->
     fileToPNGDataURL f = Normal (png_of <$> take 5 pages)
     /\ length (png_of <$> take 5 pages) = Nat.min (length pages) 5)
  /\ (forall bytes,
        file_type f = "application/pdf" -> file_content f = Opaque bytes ->
        fileToPNGDataURL f = Throw PdfException)
  /\ (file_type f <> "application/pdf" -> fileToPNGDataURL f = Normal [ObjectUrl f]).
Proof.
  unfold fileToPNGDataURL, getDocument, numPages. split; [|split].
  - intros pages Ht Hc. split.
    + rewrite Ht, Hc, String.eqb_refl.
      rewrite render_pages_spec by (cbn; lia).
      cbn [app]. rewrite drop_0. f_equal. f_equal.
      destruct (Nat.min_spec (length pages) 5) as [[Hlt ->]|[Hge ->]];
        [|reflexivity].
      rewrite !take_ge by lia. reflexivity.
    + rewrite length_fmap, length_take. lia.
  - intros bytes Ht Hc. rewrite Ht, Hc, String.eqb_refl. reflexivity.
  - intros Hne. apply String.eqb_neq in Hne. rewrite Hne. reflexivity.
Qed.

Lemma rasterizer_pages_witness :
  fileToPNGDataURL seven_page_pdf = Normal (png_of <$> [1; 2; 3; 4; 5]%N)
  /\ fileToPNGDataURL plan_pdf = Normal (png_of <$> [11; 12; 13]%N)
  /\ fileToPNGDataURL notes_txt = Normal [ObjectUrl notes_txt].
Proof.
  split; [|split].
  - apply (proj1 (rasterizer_pages seven_page_pdf) [1; 2; 3; 4; 5; 6; 7]%N); reflexivity.
  - apply (proj1 (rasterizer_pages plan_pdf) [11; 12; 13]%N); reflexivity.
  - apply (proj2 (proj2 (rasterizer_pages notes_txt))). discriminate.
Defined.

(* ===================================================================== *)
(** ** The stored SVG *)
(* ===================================================================== *)


Lemma list_ind3 {A} (P : list A -> Prop) :
  P [] -> (forall a, P [a]) -> (forall a b, P [a; b]) ->
  (forall a b c rest, P rest -> P (a :: b :: c :: rest)) ->
  forall l, P l.
Proof.
  intros H0 H1 H2 H3.
  assert (H : forall l, P l /\ (forall a, P (a :: l)) /\ (forall a b, P (a :: b :: l))).
  { induction l as [|x l (IH0 & IH1 & IH2)]; [auto|].
    split; [apply IH1|]. split; [intros a; apply IH2|].
    intros a b. apply H3. exact IH0. }
  intros l. apply H.
Qed.

Lemma below_64 (P : N -> Prop) :
  (forall n : nat, (n < 64)%nat -> P (N.of_nat n)) -> forall x, (x < 64)%N -> P x.
Proof.
  intros H x Hx. rewrite <- (N2Nat.id x). apply H. lia.
Qed.

Lemma sextet_of_char_of_sextet x :
  (x < 64)%N -> sextet_of_char (char_of_sextet x) = Some x.
Proof.
  revert x. apply below_64. intros n Hn.
  do 64 (destruct n as [|n]; [reflexivity|]). lia.
Qed.

Lemma char_of_sextet_plain x :
  (x < 64)%N ->
  is_ascii_whitespace (char_of_sextet x) = false /\ char_of_sextet x <> "="%char.
Proof.
  revert x. apply below_64. intros n Hn.
  do 64 (destruct n as [|n]; [split; [reflexivity|discriminate]|]). lia.
Qed.

Ltac divmod a d :=
  let q := fresh "q" in
  let r := fresh "r" in
  pose proof (N.div_mod a d ltac:(lia));
  pose proof (N.mod_lt a d ltac:(lia));
  set (q := (a / d)%N) in *; set (r := (a mod d)%N) in *; clearbody q r.

Lemma one_byte a : (((a / 4) * 64 + (a mod 4) * 16) / 16 = a)%N.
Proof.
  divmod a 4%N. symmetry. apply (N.div_unique _ 16 _ 0); lia.
Qed.

Lemma two_bytes a b :
  (b < 256)%N ->
  let n := ((((a / 4) * 64 + ((a mod 4) * 16 + b / 16)) * 64 + (b mod 16) * 4) / 4)%N in
  (n / 256 = a /\ n mod 256 = b)%N.
Proof.
  intros Hb n.
  assert (E : n = (256 * a + b)%N).
  { unfold n. divmod a 4%N. divmod b 16%N.
    symmetry. apply (N.div_unique _ 4 _ 0); lia. }
  rewrite E. split; symmetry.
  - apply (N.div_unique _ 256 _ b); lia.
  - apply (N.mod_unique _ 256 a); lia.
Qed.

Lemma three_bytes a b c :
  (b < 256)%N -> (c < 256)%N ->
  let n := ((((a / 4) * 64 + ((a mod 4) * 16 + b / 16)) * 64
             + ((b mod 16) * 4 + c / 64)) * 64 + c mod 64)%N in
  (n / 65536 = a /\ (n / 256) mod 256 = b /\ n mod 256 = c)%N.
Proof.
  intros Hb Hc n.
  assert (E : n = (65536 * a + 256 * b + c)%N).
  { unfold n. divmod a 4%N. divmod b 16%N. divmod c 64%N. lia. }
  rewrite E. split; [|split].
  - symmetry. apply (N.div_unique _ 65536 _ (256 * b + c)); lia.
  - replace ((65536 * a + 256 * b + c) / 256)%N with (256 * a + b)%N
      by (apply (N.div_unique _ 256 _ c); lia).
    symmetry. apply (N.mod_unique _ 256 a); lia.
  - symmetry. apply (N.mod_unique _ 256 (256 * a + b)); lia.
Qed.

Lemma bytes_of_sextets_of_bytes bs :
  byte_sized bs -> bytes_of_sextets (sextets_of_bytes bs) = bs.
Proof.
  unfold byte_sized.
  induction bs as [|a|a b|a b c rest IH] using list_ind3; intros Hall.
  - reflexivity.
  - cbn [sextets_of_bytes bytes_of_sextets]. rewrite one_byte. reflexivity.
  - apply Forall_cons in Hall as [_ Hall]. apply Forall_cons in Hall as [Hb _].
    cbn [sextets_of_bytes bytes_of_sextets].
    destruct (two_bytes a b Hb) as [-> ->]. reflexivity.
  - apply Forall_cons in Hall as [_ Hall]. apply Forall_cons in Hall as [Hb Hall].
    apply Forall_cons in Hall as [Hc Hall].
    cbn [sextets_of_bytes bytes_of_sextets].
    destruct (three_bytes a b c Hb Hc) as (-> & -> & ->).
    rewrite IH by exact Hall. reflexivity.
Qed.

Lemma sextets_below_64 bs :
  byte_sized bs -> Forall (fun x => (x < 64)%N) (sextets_of_bytes bs).
Proof.
  unfold byte_sized.
  induction bs as [|a|a b|a b c rest IH] using list_ind3; intros Hall.
  - constructor.
  - apply Forall_cons in Hall as [Ha _]. cbn [sextets_of_bytes].
    divmod a 4%N. repeat constructor; lia.
  - apply Forall_cons in Hall as [Ha Hall]. apply Forall_cons in Hall as [Hb _].
    cbn [sextets_of_bytes]. divmod a 4%N. divmod b 16%N.
    repeat constructor; lia.
  - apply Forall_cons in Hall as [Ha Hall]. apply Forall_cons in Hall as [Hb Hall].
    apply Forall_cons in Hall as [Hc Hall]. cbn [sextets_of_bytes].
    specialize (IH Hall).
    divmod a 4%N. divmod b 16%N. divmod c 64%N.
    repeat (constructor; [lia|]). exact IH.
Qed.

Lemma encoded_chars bs :
  list_ascii_of_string (b64encode bs)
  = (char_of_sextet <$> sextets_of_bytes bs) ++ padding_of bs.
Proof.
  induction bs as [|a|a b|a b c rest IH] using list_ind3; try reflexivity.
  cbn [b64encode sextets_of_bytes padding_of list_ascii_of_string fmap list_fmap app].
  rewrite IH. reflexivity.
Qed.

Lemma sextets_of_chars xs :
  Forall (fun x => (x < 64)%N) xs -> sextets_of (char_of_sextet <$> xs) = Some xs.
Proof.
  induction 1 as [|x xs Hx _ IH]; [reflexivity|].
  cbn [fmap list_fmap sextets_of].
  rewrite (sextet_of_char_of_sextet x Hx), IH. reflexivity.
Qed.

Lemma filter_all {A} (P : A -> Prop) `{!forall x, Decision (P x)} (l : list A) :
  Forall P l -> filter P l = l.
Proof.
  induction 1 as [|x l Hx _ IH]; [reflexivity|].
  rewrite filter_cons_True by exact Hx. rewrite IH. reflexivity.
Qed.

Lemma padding_cases bs :
  padding_of bs = [] \/ padding_of bs = ["="%char] \/ padding_of bs = ["="%char; "="%char].
Proof.
  induction bs as [|a|a b|a b c rest IH] using list_ind3; cbn [padding_of]; auto.
Qed.

Lemma mod4_step n : (S (S (S (S n))) mod 4 = n mod 4)%nat.
Proof.
  change (S (S (S (S n)))) with (4 + n)%nat.
  rewrite Nat.add_comm. apply (Nat.Div0.mod_add n 1 4).
Qed.

Lemma encoded_length bs :
  (length ((char_of_sextet <$> sextets_of_bytes bs) ++ padding_of bs) mod 4 = 0)%nat
  /\ (length (sextets_of_bytes bs) mod 4 <> 1)%nat.
Proof.
  induction bs as [|a|a b|a b c rest [IH1 IH2]] using list_ind3;
    try (split; [reflexivity|discriminate]).
  cbn [sextets_of_bytes padding_of fmap list_fmap app length].
  rewrite !mod4_step. split; assumption.
Qed.

Lemma not_equals_sign (c : ascii) (r l : list ascii) :
  c <> "="%char ->
  match c :: r with
  | "="%char :: "="%char :: r' => rev r'
  | "="%char :: r' => rev r'
  | _ => l
  end = l
  /\ match "="%char :: c :: r with
     | "="%char :: "="%char :: r' => rev r'
     | "="%char :: r' => rev r'
     | _ => l
     end = rev (c :: r).
Proof.
  intros Hc.
  destruct c as [[] [] [] [] [] [] [] []]; try (split; reflexivity).
  exfalso. apply Hc. reflexivity.
Qed.

Lemma strip_padding_of body pad :
  Forall (fun c => c <> "="%char) body ->
  pad = [] \/ pad = ["="%char] \/ pad = ["="%char; "="%char] ->
  (length (body ++ pad) mod 4 = 0)%nat ->
  strip_padding (body ++ pad) = body.
Proof.
  intros Hbody Hpad Hlen. unfold strip_padding. rewrite Hlen. cbn [Nat.eqb].
  rewrite rev_app_distr.
  assert (Hrev : Forall (fun c => c <> "="%char) (rev body)).
  { apply List.Forall_rev. exact Hbody. }
  destruct Hpad as [->|[->| ->]]; cbn [rev app];
    try (rewrite rev_involutive; reflexivity).
  - rewrite app_nil_r. destruct (rev body) as [|c r] eqn:E; [reflexivity|].
    apply Forall_cons in Hrev as [Hc _].
    apply (not_equals_sign c r body Hc).
  - destruct (rev body) as [|c r] eqn:E.
    + rewrite <- (rev_involutive body), E. reflexivity.
    + apply Forall_cons in Hrev as [Hc _].
      rewrite (proj2 (not_equals_sign c r (body ++ ["="%char]) Hc)).
      rewrite <- E. apply rev_involutive.
Qed.

(** Decoding what the worker encoded gives the worker's bytes back. *)
Lemma base64_round_trip bs :
  byte_sized bs -> forgiving_base64_decode (b64encode bs) = Some bs.
Proof.
  intros Hbs. unfold forgiving_base64_decode.
  pose proof (sextets_below_64 bs Hbs) as H64.
  assert (Hplain : Forall (fun c => is_ascii_whitespace c = false /\ c <> "="%char)
                     (char_of_sextet <$> sextets_of_bytes bs)).
  { apply Forall_fmap. eapply Forall_impl; [exact H64|].
    intros x Hx. apply char_of_sextet_plain. exact Hx. }
  destruct (encoded_length bs) as [Hlen Hbody].
  rewrite encoded_chars, filter_all.
  - rewrite strip_padding_of;
      [|eapply Forall_impl; [exact Hplain|intros c [_ Hc]; exact Hc]
       |apply padding_cases|exact Hlen].
    rewrite length_fmap.
    destruct (Nat.eqb_spec (length (sextets_of_bytes bs) mod 4) 1) as [E|_];
      [contradiction|].
    rewrite (sextets_of_chars _ H64). cbn [fmap option_fmap option_map].
    rewrite (bytes_of_sextets_of_bytes bs Hbs). reflexivity.
  - apply Forall_app. split.
    + eapply Forall_impl; [exact Hplain|intros c [Hc _]; exact Hc].
    + destruct (padding_cases bs) as [->|[->| ->]]; repeat constructor.
Qed.

Lemma utf8_of_ascii_bytes bs :
  Forall (fun b => (b < 128)%N) bs ->
  utf8_encode (string_of_list_ascii (map ascii_of_N bs)) = bs.
Proof.
  induction 1 as [|b bs Hb _ IH]; [reflexivity|].
  cbn [map string_of_list_ascii].
  change (utf8_encode (String ?a ?s)) with (utf8_of_unit a ++ utf8_encode s).
  rewrite IH. unfold utf8_of_unit. rewrite N_ascii_embedding by lia.
  apply N.ltb_lt in Hb. rewrite Hb. reflexivity.
Qed.

(** An SVG made of ASCII bytes only is stored byte for byte. *)
Lemma ascii_svg_is_stored_exactly json bs :
  Forall (fun b => (b < 128)%N) bs ->
  get json "svg" = Normal (JString (b64encode bs)) ->
  exists text, decode_svg json = Normal text /\ utf8_encode text = bs.
Proof.
  intros Hbs Hget. unfold decode_svg, and_then. rewrite Hget. cbn [ToString].
  unfold atob. rewrite base64_round_trip.
  - eexists. split; [reflexivity|]. apply utf8_of_ascii_bytes. exact Hbs.
  - unfold byte_sized. eapply Forall_impl; [exact Hbs|]. intros b Hb. cbn beta in *. lia.
Qed.

(** C8 (evaluated where it breaks): the worker encodes the thirteen bytes
    of an SVG holding one accented letter; [atob] gives them back one code
    unit each, but the blob built from that string stores every unit above
    127 as two bytes, so fifteen bytes reach the bucket. *)
Theorem stored_svg_differs_from_encoded_bytes :
  b64encode accented_svg = "PHN2Zz7DqTwvc3ZnPg=="
  /\ forgiving_base64_decode (b64encode accented_svg) = Some accented_svg
  /\ exists c' w',
       run (handleUpload accented_reply) fresh_page empty_world
       = (Alert "Processed. Review below.", c', w')
       /\ storage w' !! ("outputs", "user-alice/p1/page-1.svg")
          = Some (TextBlob "image/svg+xml"
                    [60; 115; 118; 103; 62; 195; 131; 194; 169;
                     60; 47; 115; 118; 103; 62]%N)
       /\ storage w' !! ("outputs", "user-alice/p1/page-1.svg")
          <> Some (TextBlob "image/svg+xml" accented_svg).
Proof.
  split; [reflexivity|]. split; [reflexivity|].
  eexists _, _. split; [vm_compute; reflexivity|].
  split; [reflexivity|]. vm_compute. discriminate.
Qed.

(* ===================================================================== *)
(** ** Further properties of handleUpload *)
(* ===================================================================== *)

Ltac calc :=
  lazy beta iota zeta delta
    [run finish bind ret leave await on_world on_comp read_world
     plans_insert storage_upload outputs_insert plans_update plans_select_latest
     reviews_insert usage_ledger_insert outputs_update_csv vectorize_url
     setOriginalImg setPreview comp world fst snd plan_id].

(** Every exit of [handleUpload] in turn; [fin] closes the goal at each. *)
Ltac upload_cases env c fin :=
  unfold handleUpload; calc;
  let u := fresh "u" in let f := fresh "f" in let g := fresh "g" in
  let urls := fresh "urls" in let blob := fresh "blob" in
  let json := fresh "json" in let svg := fresh "svg" in
  let Hd := fresh "Hd" in
  destruct (user c) as [u|] eqn:?; [|fin];
  destruct (file c) as [f|] eqn:?; [|fin];
  destruct (plan_insert_reply env) as [g|] eqn:?; calc; [|fin];
  destruct (fileToPNGDataURL f) as [urls|] eqn:?; calc; [|fin];
  destruct (fetch_blob (stray_fetch_reply env) (head urls)) as [blob|] eqn:?; calc; [|fin];
  destruct (raster_upload_ok env) eqn:?; calc; [|fin];
  destruct (worker_reply env) as [|? [json|]] eqn:?; calc; [fin| |fin];
  destruct (decode_svg json) as [svg|] eqn:Hd; calc; [|fin];
  destruct (svg_upload_ok env) eqn:?; calc; [|fin];
  rewrite !(decode_svg_get _ _ Hd); calc;
  destruct (output_insert_ok env) eqn:?, (plan_update_ok env) eqn:?; calc; fin.

(** X1: [handleUpload] never writes a review or a ledger row, whatever the
    collaborators answer; it adds at most one output row and leaves the
    output rows that were there in place. *)
Theorem handleUpload_never_debits env c w :
  let w' := (run (handleUpload env) c w).2 in
  reviews w' = reviews w
  /\ usage_ledger w' = usage_ledger w
  /\ exists new, outputs w' = outputs w ++ new /\ (length new <= 1)%nat.
Proof.
  upload_cases env c
    ltac:(cbn; repeat split; try reflexivity;
          first [ exists []; split; [rewrite app_nil_r; reflexivity|cbn; lia]
                | eexists [_]; split; [reflexivity|cbn; lia] ]).
Qed.

(** X2: whenever [handleUpload] ends in a failure after the plan row was
    created (either storage alert, or a rejection), the plan row stays in
    the table exactly as inserted, with the initial status and page count 0,
    and no output row has been written. *)
Theorem failed_upload_leaves_unprocessed_plan env c w e c' w' :
  run (handleUpload env) c w = (e, c', w') ->
  e = Alert "Storage upload failed" \/ e = Alert "SVG store failed"
    \/ (exists x, e = Reject x) ->
  exists u f g,
    user c = Some u /\ file c = Some f /\ plan_insert_reply env = Some g
    /\ plans w' = plans w ++ [inserted_plan u f g]
    /\ plan_status (inserted_plan u f g) = INITIAL_STATUS
    /\ plan_page_count (inserted_plan u f g) = 0%nat
    /\ outputs w' = outputs w.
Proof.
  revert e c' w'.
  upload_cases env c
    ltac:(let Hrun := fresh "Hrun" in let Hexit := fresh "Hexit" in
          let Hx := fresh "Hx" in
          intros ? ? ? Hrun Hexit; injection Hrun as <- <- <-;
          first [ destruct Hexit as [Hx|[Hx|[? Hx]]]; discriminate Hx
                | eexists _, _, _; repeat split; reflexivity ]).
Qed.

Lemma failed_upload_leaves_unprocessed_plan_witness :
  exists c' w',
    run (handleUpload svg_upload_fails) fresh_page empty_world
    = (Alert "SVG store failed", c', w')
    /\ plans w' = [inserted_plan alice plan_pdf p1] /\ outputs w' = [].
Proof.
  destruct (run (handleUpload svg_upload_fails) fresh_page empty_world)
    as [[e c'] w'] eqn:Hrun.
  assert (He : e = Alert "SVG store failed").
  { apply (f_equal (fun r => r.1.1)) in Hrun. vm_compute in Hrun. congruence. }
  subst e.
  destruct (failed_upload_leaves_unprocessed_plan svg_upload_fails fresh_page
              empty_world _ c' w' Hrun)
    as (u & f & g & Hu & Hf & Hg & Hp & _ & _ & Ho).
  - right. left. reflexivity.
  - injection Hu as <-. injection Hf as <-. injection Hg as <-.
    exists c', w'. repeat split; assumption.
Defined.

(** X3: when the upload of the first-page raster fails, [handleUpload]
    reports "Storage upload failed" and stops before the worker is called:
    the page state is untouched (no image, no preview), nothing is stored,
    and the plan row just inserted is left behind. *)
Theorem raster_upload_failure_stops_before_worker env c w u f g urls blob :
  user c = Some u -> file c = Some f -> plan_insert_reply env = Some g ->
  fileToPNGDataURL f = Normal urls ->
  fetch_blob (stray_fetch_reply env) (head urls) = Normal blob ->
  raster_upload_ok env = false ->
  exists w',
    run (handleUpload env) c w = (Alert "Storage upload failed", c, w')
    /\ storage w' = storage w
    /\ plans w' = plans w ++ [inserted_plan u f g]
    /\ outputs w' = outputs w
    /\ sent w' = sent w ++ [ InsertPlan (user_id u) (file_name f) 0;
                             Upload "plans" (object_path u (gen_id g) "png") blob ].
Proof.
  intros Hu Hf Hg Hr Hb Hro.
  unfold handleUpload. calc. rewrite Hu, Hf, Hg. calc. rewrite Hr. calc.
  rewrite Hb. calc. rewrite Hro. calc.
  eexists. split; [reflexivity|]. cbn.
  repeat split; try reflexivity. rewrite <- app_assoc. reflexivity.
Qed.

Lemma raster_upload_failure_stops_before_worker_witness :
  exists w',
    run (handleUpload raster_upload_fails) fresh_page empty_world
    = (Alert "Storage upload failed", fresh_page, w')
    /\ storage w' = ∅
    /\ sent w' = [ InsertPlan "alice" "plan.pdf" 0;
                   Upload "plans" "user-alice/p1/page-1.png"
                     (PngBlob {| vp_page := 11%N; vp_scale := Finite false 2 1 |}) ].
Proof.
  destruct (raster_upload_failure_stops_before_worker raster_upload_fails fresh_page
              empty_world alice plan_pdf p1 (png_of <$> [11; 12; 13]%N)
              (PngBlob {| vp_page := 11%N; vp_scale := Finite false 2 1 |}))
    as (w' & Hrun & Hst & _ & _ & Hs); try reflexivity.
  exists w'. repeat split; assumption.
Defined.

(** X4: when storing the SVG fails, [handleUpload] reports "SVG store
    failed" with the page already showing the result: [preview] holds the
    worker's answer and [originalImg] the public URL of the raster, while
    the [outputs] bucket and the [outputs] table have received nothing. *)
Theorem svg_store_failure_leaves_preview_set env c w u f g urls blob status json svg :
  Reaches_worker env c u f g urls blob ->
  worker_reply env = HttpReply status (Some json) ->
  decode_svg json = Normal svg ->
  svg_upload_ok env = false ->
  exists c' w',
    run (handleUpload env) c w = (Alert "SVG store failed", c', w')
    /\ preview c' = json
    /\ originalImg c' = Some (PublicUrl "plans" (object_path u (gen_id g) "png"))
    /\ outputs w' = outputs w
    /\ storage w' = <[("plans", object_path u (gen_id g) "png") := blob]> (storage w)
    /\ last (sent w') = Some (Upload "outputs" (object_path u (gen_id g) "svg")
                                (TextBlob "image/svg+xml" (utf8_encode svg))).
Proof.
  intros [Hu Hf Hg Hr Hb Hro] Hw Hd Hso.
  unfold handleUpload. calc. rewrite Hu, Hf, Hg. calc. rewrite Hr. calc.
  rewrite Hb. calc. rewrite Hro. calc. rewrite Hw. calc. rewrite Hd. calc.
  rewrite Hso. calc.
  eexists _, _. split; [reflexivity|]. cbn.
  repeat split; try reflexivity. apply last_snoc.
Qed.

Lemma svg_store_failure_leaves_preview_set_witness :
  exists c' w',
    run (handleUpload svg_upload_fails) fresh_page empty_world
    = (Alert "SVG store failed", c', w')
    /\ preview c' = sample_json
    /\ outputs w' = []
    /\ storage w' !! ("outputs", "user-alice/p1/page-1.svg") = None.
Proof.
  destruct (svg_store_failure_leaves_preview_set svg_upload_fails fresh_page empty_world
              alice plan_pdf p1 (png_of <$> [11; 12; 13]%N)
              (PngBlob {| vp_page := 11%N; vp_scale := Finite false 2 1 |})
              200 sample_json "<svg/>")
    as (c' & w' & Hrun & Hp & _ & Ho & Hst & _).
  - split; reflexivity.
  - reflexivity.
  - reflexivity.
  - reflexivity.
  - exists c', w'. repeat split; try assumption.
    rewrite Hst. reflexivity.
Defined.

(** X5: [handleUpload] writes only the two objects of the plan it created:
    every other key of the two buckets holds after the call what it held
    before, whatever the collaborators answer. *)
Theorem handleUpload_writes_only_its_own_objects env c w (k : string * string) :
  (forall u g, user c = Some u -> plan_insert_reply env = Some g ->
     k <> ("plans", object_path u (gen_id g) "png")
     /\ k <> ("outputs", object_path u (gen_id g) "svg")) ->
  storage (run (handleUpload env) c w).2 !! k = storage w !! k.
Proof.
  upload_cases env c
    ltac:(let H := fresh "H" in
          intros H; cbn;
          first [ reflexivity
                | destruct (H _ _ eq_refl eq_refl) as [? ?];
                  rewrite ?lookup_insert_ne by (apply not_eq_sym; assumption);
                  reflexivity ]).
Qed.

Lemma handleUpload_writes_only_its_own_objects_witness :
  storage (run (handleUpload all_ok) fresh_page bobs_world).2
    !! ("plans", "user-bob/p0/page-1.png")
  = Some (FileBlob broken_png).
Proof.
  rewrite (handleUpload_writes_only_its_own_objects all_ok fresh_page bobs_world
             ("plans", "user-bob/p0/page-1.png")).
  - reflexivity.
  - intros u g Hu Hg. injection Hu as <-. injection Hg as <-.
    split; discriminate.
Defined.

Lemma pdf_urls f pages :
  file_type f = "application/pdf" -> file_content f = PdfPages pages ->
  fileToPNGDataURL f = Normal (png_of <$> take 5 pages).
Proof.
  intros Ht Hc. unfold fileToPNGDataURL, getDocument, numPages.
  rewrite Ht, Hc, String.eqb_refl.
  rewrite render_pages_spec by (cbn; lia).
  cbn [app]. rewrite drop_0. f_equal. f_equal.
  destruct (Nat.min_spec (length pages) 5) as [[Hlt ->]|[Hge ->]]; [|reflexivity].
  rewrite !take_ge by lia. reflexivity.
Qed.

Lemma other_urls f :
  file_type f <> "application/pdf" -> fileToPNGDataURL f = Normal [ObjectUrl f].
Proof.
  intros Hne. unfold fileToPNGDataURL. apply String.eqb_neq in Hne.
  rewrite Hne. reflexivity.
Qed.

(** Once stored, the raster stays where it is, however the run goes on. *)
Lemma raster_stays_stored env c w u f g urls blob :
  Reaches_worker env c u f g urls blob ->
  storage (run (handleUpload env) c w).2 !! ("plans", object_path u (gen_id g) "png")
  = Some blob.
Proof.
  intros [Hu Hf Hg Hr Hb Hro].
  unfold handleUpload. calc. rewrite Hu, Hf, Hg. calc. rewrite Hr. calc.
  rewrite Hb. calc. rewrite Hro. calc.
  destruct (worker_reply env) as [|st [json|]]; calc;
    try (cbn; apply lookup_insert_eq).
  destruct (decode_svg json) as [svg|] eqn:Hd; calc;
    try (cbn; apply lookup_insert_eq).
  destruct (svg_upload_ok env); calc; try (cbn; apply lookup_insert_eq).
  rewrite !(decode_svg_get _ _ Hd). calc.
  destruct (output_insert_ok env), (plan_update_ok env); cbn;
    (rewrite lookup_insert_ne by discriminate); apply lookup_insert_eq.
Qed.

(** X6: of a PDF only the first page reaches the [plans] bucket, rendered at
    scale 2, whatever the later pages are and however the run ends after the
    upload; a file of any other type is stored as it is. *)
Theorem only_the_first_page_is_stored env c w u f g :
  user c = Some u -> file c = Some f -> plan_insert_reply env = Some g ->
  raster_upload_ok env = true ->
  (forall p rest,
     file_type f = "application/pdf" -> file_content f = PdfPages (p :: rest) ->
     storage (run (handleUpload env) c w).2 !! ("plans", object_path u (gen_id g) "png")
     = Some (PngBlob {| vp_page := p; vp_scale := Finite false 2 1 |}))
  /\ (file_type f <> "application/pdf" ->
      storage (run (handleUpload env) c w).2 !! ("plans", object_path u (gen_id g) "png")
      = Some (FileBlob f)).
Proof.
  intros Hu Hf Hg Hro. split.
  - intros p rest Ht Hc.
    apply (raster_stays_stored env c w u f g (png_of <$> take 5 (p :: rest))).
    split; try assumption; [apply pdf_urls; assumption|reflexivity].
  - intros Hne.
    apply (raster_stays_stored env c w u f g [ObjectUrl f]).
    split; try assumption; [apply other_urls; assumption|reflexivity].
Qed.

Lemma only_the_first_page_is_stored_witness :
  storage (run (handleUpload worker_down) big_upload empty_world).2
    !! ("plans", "user-alice/p1/page-1.png")
  = Some (PngBlob {| vp_page := 1%N; vp_scale := Finite false 2 1 |})
  /\ storage (run (handleUpload all_ok) image_upload empty_world).2
       !! ("plans", "user-alice/p1/page-1.png")
     = Some (FileBlob broken_png).
Proof.
  split.
  - apply (proj1 (only_the_first_page_is_stored worker_down big_upload empty_world
                    alice seven_page_pdf p1 eq_refl eq_refl eq_refl eq_refl)
             1%N [2; 3; 4; 5; 6; 7]%N); reflexivity.
  - apply (proj2 (only_the_first_page_is_stored all_ok image_upload empty_world
                    alice broken_png p1 eq_refl eq_refl eq_refl eq_refl)).
    discriminate.
Defined.

(** X7: a run that reaches its last line with the plan update honoured
    records [min N 5] as the page count of an N-page PDF, and 1 for a file
    of any other type. *)
Theorem recorded_page_count env c w c' w' f g :
  run (handleUpload env) c w = (Alert "Processed. Review below.", c', w') ->
  file c = Some f -> plan_insert_reply env = Some g ->
  plan_update_ok env = true ->
  (forall p, p ∈ plans w -> plan_id p <> gen_id g) ->
  (forall pages,
     file_type f = "application/pdf" -> file_content f = PdfPages pages ->
     plan_page_count <$> plans_with_id (gen_id g) w' = [Nat.min (length pages) 5])
  /\ (file_type f <> "application/pdf" ->
      plan_page_count <$> plans_with_id (gen_id g) w' = [1%nat]).
Proof.
  intros Hrun Hf Hg Hupd Hfresh.
  destruct (handleUpload_end_inv _ _ _ _ _ Hrun)
    as (u & f0 & g0 & urls & blob & json & svg & R).
  destruct (handleUpload_to_the_end env c w _ _ _ _ _ _ _ R)
    as (c2 & w2 & Hrun2 & Hp & _).
  rewrite Hrun in Hrun2. injection Hrun2 as <- <-.
  destruct R as [[Hu Hf0 Hg0 Hr Hb Hro] _ _ _].
  rewrite Hf in Hf0. injection Hf0 as <-.
  rewrite Hg in Hg0. injection Hg0 as <-.
  rewrite Hupd in Hp.
  assert (Hrow : plan_page_count <$> plans_with_id (gen_id g) w' = [length urls]).
  { unfold plans_with_id.
    rewrite Hp, map_app, (map_set_processed_other _ _ _ _ Hfresh).
    rewrite filter_app, (filter_none _ _ Hfresh).
    change (map ?h [?x]) with [h x].
    rewrite set_processed_hit by reflexivity.
    rewrite filter_cons_True by reflexivity. reflexivity. }
  split.
  - intros pages Ht Hc. rewrite Hrow.
    rewrite (pdf_urls f pages Ht Hc) in Hr. injection Hr as <-.
    rewrite length_fmap, length_take. f_equal. lia.
  - intros Hne. rewrite Hrow.
    rewrite (other_urls f Hne) in Hr. injection Hr as <-. reflexivity.
Qed.

Lemma recorded_page_count_witness :
  plan_page_count <$> plans_with_id "p1" (run (handleUpload all_ok) big_upload empty_world).2
  = [5%nat].
Proof.
  destruct (run (handleUpload all_ok) big_upload empty_world) as [[e c'] w'] eqn:Hrun.
  assert (He : e = Alert "Processed. Review below.").
  { apply (f_equal (fun r => r.1.1)) in Hrun. vm_compute in Hrun. congruence. }
  subst e.
  apply (proj1 (recorded_page_count all_ok big_upload empty_world c' w'
                  seven_page_pdf p1 Hrun eq_refl eq_refl eq_refl
                  ltac:(intros p Hp; inversion Hp))
           [1; 2; 3; 4; 5; 6; 7]%N); reflexivity.
Defined.

(** X8: an SVG made of ASCII bytes only, base64-encoded by the worker,
    reaches the [outputs] bucket byte for byte under
    [user-{userId}/{planId}/page-1.svg]. *)
Theorem ascii_svg_reaches_the_bucket_unchanged env c w u f g urls blob status json bs :
  Reaches_worker env c u f g urls blob ->
  worker_reply env = HttpReply status (Some json) ->
  get json "svg" = Normal (JString (b64encode bs)) ->
  Forall (fun b => (b < 128)%N) bs ->
  svg_upload_ok env = true ->
  storage (run (handleUpload env) c w).2 !! ("outputs", object_path u (gen_id g) "svg")
  = Some (TextBlob "image/svg+xml" bs).
Proof.
  intros Rw Hw Hsvg Hbs Hso.
  destruct (ascii_svg_is_stored_exactly json bs Hbs Hsvg) as (text & Hd & Hbytes).
  destruct (handleUpload_to_the_end env c w u f g urls blob json text)
    as (c' & w' & Hrun & _ & _ & _ & _ & Hst & _).
  { split; [exact Rw|exists status; exact Hw|exact Hd|exact Hso]. }
  rewrite Hrun. cbn [snd]. rewrite Hst, Hbytes. apply lookup_insert_eq.
Qed.

Lemma ascii_svg_reaches_the_bucket_unchanged_witness :
  storage (run (handleUpload all_ok) fresh_page empty_world).2
    !! ("outputs", "user-alice/p1/page-1.svg")
  = Some (TextBlob "image/svg+xml" [60; 115; 118; 103; 47; 62]%N).
Proof.
  apply (ascii_svg_reaches_the_bucket_unchanged all_ok fresh_page empty_world
           alice plan_pdf p1 (png_of <$> [11; 12; 13]%N)
           (PngBlob {| vp_page := 11%N; vp_scale := Finite false 2 1 |})
           200 sample_json [60; 115; 118; 103; 47; 62]%N).
  - split; reflexivity.
  - reflexivity.
  - reflexivity.
  - repeat constructor.
  - reflexivity.
Defined.

(** X9: [setPreview(json)] runs before [atob(json.svg)].  So when the
    worker's answer is a truthy JSON value whose [svg] does not decode,
    [handleUpload] rejects and leaves that answer in [preview], and the next
    render of the page throws the same exception while building the review
    panel. *)
Theorem undecodable_reply_breaks_the_next_render env c w u f g urls blob status json e :
  Reaches_worker env c u f g urls blob ->
  worker_reply env = HttpReply status (Some json) ->
  decode_svg json = Throw e ->
  truthy json = true ->
  exists c' w',
    run (handleUpload env) c w = (Reject e, c', w')
    /\ preview c' = json
    /\ forall in_browser, render in_browser c' = Throw e.
Proof.
  intros [Hu Hf Hg Hr Hb Hro] Hw Hd Ht.
  unfold handleUpload. calc. rewrite Hu, Hf, Hg. calc. rewrite Hr. calc.
  rewrite Hb. calc. rewrite Hro. calc. rewrite Hw. calc. rewrite Hd. calc.
  eexists _, _. split; [reflexivity|]. split; [reflexivity|].
  intros in_browser. unfold render. cbn [user preview].
  rewrite Hu, Ht, Hd. reflexivity.
Qed.

Lemma undecodable_reply_breaks_the_next_render_witness :
  exists c' w',
    run (handleUpload server_error_detail) fresh_page empty_world
    = (Reject InvalidCharacterError, c', w')
    /\ render true c' = Throw InvalidCharacterError.
Proof.
  destruct (undecodable_reply_breaks_the_next_render server_error_detail fresh_page
              empty_world alice plan_pdf p1 (png_of <$> [11; 12; 13]%N)
              (PngBlob {| vp_page := 11%N; vp_scale := Finite false 2 1 |})
              500 (JObject [("detail", JString "Internal Server Error")])
              InvalidCharacterError)
    as (c' & w' & Hrun & _ & Hrender).
  - split; reflexivity.
  - reflexivity.
  - reflexivity.
  - reflexivity.
  - exists c', w'. split; [exact Hrun|apply Hrender].
Defined.

(* ===================================================================== *)
(** ** Further properties of approveExport *)
(* ===================================================================== *)

(** Every exit of [approveExport] in turn; [fin] closes the goal at each. *)
Ltac approve_cases env c w fin :=
  unfold approveExport; calc;
  let u := fresh "u" in let p := fresh "p" in let csv := fresh "csv" in
  destruct (user c) as [u|] eqn:?; [|fin];
  destruct (truthy (preview c)) eqn:?; calc; [|fin];
  destruct (select_ok env) eqn:?; calc; cbn [plans log]; [|fin];
  destruct (latest (plans w)) as [p|] eqn:?; calc; [|fin];
  destruct (review_insert_ok env) eqn:?, (ledger_insert_ok env) eqn:?; calc;
  (destruct (csv_text (preview c)) as [csv|] eqn:?; calc; [|fin]);
  (destruct (csv_upload_ok env) eqn:?; calc; [|fin]);
  destruct (output_update_ok env) eqn:?; calc; fin.

Lemma set_csv_path_plan plan csv o : out_plan_id (set_csv_path plan csv o) = out_plan_id o.
Proof. unfold set_csv_path. destruct (String.eqb (out_plan_id o) plan); reflexivity. Qed.

Lemma map_set_csv_path_plans plan csv (os : list OutputRow) :
  out_plan_id <$> map (set_csv_path plan csv) os = out_plan_id <$> os.
Proof.
  induction os as [|o os IH]; [reflexivity|].
  cbn [map fmap list_fmap]. rewrite set_csv_path_plan. f_equal. exact IH.
Qed.

(** X10: [approveExport] never changes the [plans] table or the page state;
    it adds at most one review and at most one ledger row after the rows
    that were there; and it neither adds nor removes an output row nor moves
    one to another plan, whatever the collaborators answer. *)
Theorem approveExport_only_appends env c w :
  let r := run (approveExport env) c w in
  r.1.2 = c
  /\ plans r.2 = plans w
  /\ (exists new, reviews r.2 = reviews w ++ new /\ (length new <= 1)%nat)
  /\ (exists new, usage_ledger r.2 = usage_ledger w ++ new /\ (length new <= 1)%nat)
  /\ out_plan_id <$> outputs r.2 = out_plan_id <$> outputs w.
Proof.
  approve_cases env c w
    ltac:(cbn; rewrite ?map_set_csv_path_plans;
          repeat split; try reflexivity;
          first [ exists []; split; [rewrite app_nil_r; reflexivity|cbn; lia]
                | eexists [_]; split; [reflexivity|cbn; lia] ]).
Qed.



Lemma set_csv_path_other plan csv o :
  out_plan_id o <> plan -> set_csv_path plan csv o = o.
Proof.
  intros Hne. unfold set_csv_path.
  destruct (String.eqb_spec (out_plan_id o) plan); [contradiction|reflexivity].
Qed.

Lemma set_csv_path_hit plan csv o :
  out_plan_id o = plan -> out_csv_path (set_csv_path plan csv o) = Some csv.
Proof. intros E. unfold set_csv_path. rewrite E, String.eqb_refl. reflexivity. Qed.

Lemma set_csv_path_svg plan csv o :
  out_svg_path (set_csv_path plan csv o) = out_svg_path o
  /\ out_metrics (set_csv_path plan csv o) = out_metrics o
  /\ out_confidence (set_csv_path plan csv o) = out_confidence o.
Proof. unfold set_csv_path. destruct (String.eqb (out_plan_id o) plan); auto. Qed.

Lemma approveExport_exported env c w u p csv :
  Resolves env c w u p ->
  csv_text (preview c) = Normal csv ->
  csv_upload_ok env = true ->
  exists w',
    run (approveExport env) c w = (Alert "Approved & exported CSV.", c, w')
    /\ plans w' = plans w
    /\ outputs w' = (if output_update_ok env
                     then map (set_csv_path (plan_id p) (object_path u (plan_id p) "csv"))
                     else fun os => os) (outputs w)
    /\ reviews w' = reviews w ++ (if review_insert_ok env then [approval p] else [])
    /\ usage_ledger w' = usage_ledger w ++ (if ledger_insert_ok env then [debit u p] else [])
    /\ storage w' = <[("outputs", object_path u (plan_id p) "csv") := csv_blob csv]> (storage w)
    /\ sent w' = sent w ++ [SelectLatestPlan; InsertReview (approval p);
                            InsertLedger (debit u p);
                            Upload "outputs" (object_path u (plan_id p) "csv") (csv_blob csv);
                            UpdateOutputCsv (plan_id p) (object_path u (plan_id p) "csv")].
Proof.
  intros Hres Hcsv Hup.
  rewrite (approveExport_resolved _ _ _ _ _ Hres).
  unfold export_step. rewrite Hcsv, Hup. cbn [fst snd].
  eexists. split; [reflexivity|].
  destruct (output_update_ok env); cbn; rewrite <- ?app_assoc; repeat split; reflexivity.
Qed.

(** X12: a successful approval writes the path of the CSV into every output
    row of the plan, however many there are, and into no other: the table
    keeps its length, rows of other plans stay as they were, and the SVG
    path, metrics and confidence of every row are kept. *)
Theorem approval_links_every_row_of_the_plan env c w u p csv :
  Resolves env c w u p ->
  csv_text (preview c) = Normal csv ->
  csv_upload_ok env = true ->
  output_update_ok env = true ->
  exists w',
    run (approveExport env) c w = (Alert "Approved & exported CSV.", c, w')
    /\ length (outputs w') = length (outputs w)
    /\ forall i o, outputs w !! i = Some o ->
         exists o', outputs w' !! i = Some o'
           /\ out_plan_id o' = out_plan_id o
           /\ out_svg_path o' = out_svg_path o
           /\ out_metrics o' = out_metrics o
           /\ out_confidence o' = out_confidence o
           /\ (out_plan_id o = plan_id p ->
               out_csv_path o' = Some (object_path u (plan_id p) "csv"))
           /\ (out_plan_id o <> plan_id p -> o' = o).
Proof.
  intros Hres Hcsv Hup Hout.
  destruct (approveExport_exported _ _ _ _ _ _ Hres Hcsv Hup)
    as (w' & Hrun & _ & Ho & _).
  rewrite Hout in Ho. exists w'. split; [exact Hrun|]. rewrite Ho.
  split; [apply length_map|].
  intros i o Hi. eexists. split.
  - change (map ?f ?l) with (f <$> l). rewrite list_lookup_fmap, Hi. reflexivity.
  - split; [apply set_csv_path_plan|].
    destruct (set_csv_path_svg (plan_id p) (object_path u (plan_id p) "csv") o)
      as (Hs & Hm & Hc).
    split; [exact Hs|]. split; [exact Hm|]. split; [exact Hc|].
    split; [apply set_csv_path_hit | apply set_csv_path_other].
Qed.

Lemma approval_links_every_row_of_the_plan_witness :
  exists w',
    run (approveExport approve_ok) reviewed_page three_outputs
    = (Alert "Approved & exported CSV.", reviewed_page, w')
    /\ length (outputs w') = 3%nat.
Proof.
  destruct (approval_links_every_row_of_the_plan approve_ok reviewed_page three_outputs
              alice plan_p1
              (match csv_text sample_json with Normal s => s | Throw _ => EmptyString end))
    as (w' & Hrun & Hlen & _).
  - split; reflexivity.
  - reflexivity.
  - reflexivity.
  - reflexivity.
  - exists w'. split; [exact Hrun | exact Hlen].
Defined.

(** X13: when the newest plan has no output row (its upload stopped before
    the insert, or the insert was refused), an approval still debits the
    credit, stores the CSV and alerts that it exported, but the update
    matches no row: the [outputs] table is unchanged and no row carries the
    path of the stored CSV. *)
Theorem approval_of_a_plan_without_output_links_nothing env c w u p csv :
  Resolves env c w u p ->
  csv_text (preview c) = Normal csv ->
  csv_upload_ok env = true ->
  outputs_of (plan_id p) w = [] ->
  exists w',
    run (approveExport env) c w = (Alert "Approved & exported CSV.", c, w')
    /\ outputs w' = outputs w
    /\ storage w' !! ("outputs", object_path u (plan_id p) "csv") = Some (csv_blob csv)
    /\ usage_ledger w' = usage_ledger w ++ (if ledger_insert_ok env then [debit u p] else []).
Proof.
  intros Hres Hcsv Hup Hnone.
  destruct (approveExport_exported _ _ _ _ _ _ Hres Hcsv Hup)
    as (w' & Hrun & _ & Ho & _ & Hl & Hs & _).
  exists w'. split; [exact Hrun|]. split; [|split; [|exact Hl]].
  - rewrite Ho. destruct (output_update_ok env); [|reflexivity].
    assert (Hall : forall o, o ∈ outputs w -> out_plan_id o <> plan_id p).
    { intros o Hin Heq.
      assert (Hin' : o ∈ outputs_of (plan_id p) w).
      { unfold outputs_of. apply list_elem_of_filter. split; assumption. }
      rewrite Hnone in Hin'. inversion Hin'. }
    clear -Hall. induction (outputs w) as [|o os IH]; [reflexivity|].
    cbn [map]. rewrite set_csv_path_other by (apply Hall; left).
    f_equal. apply IH. intros o' Hin. apply Hall. right. exact Hin.
  - rewrite Hs. apply lookup_insert_eq.
Qed.

Lemma approval_of_a_plan_without_output_links_nothing_witness :
  exists w',
    run (approveExport approve_ok) reviewed_page no_output_world
    = (Alert "Approved & exported CSV.", reviewed_page, w')
    /\ outputs w' = [output_p0].
Proof.
  destruct (approval_of_a_plan_without_output_links_nothing approve_ok reviewed_page
              no_output_world alice plan_p1
              (match csv_text sample_json with Normal s => s | Throw _ => EmptyString end))
    as (w' & Hrun & Ho & _).
  - split; reflexivity.
  - reflexivity.
  - reflexivity.
  - reflexivity.
  - exists w'. split; [exact Hrun | exact Ho].
Defined.

Lemma set_csv_path_idem plan csv o :
  set_csv_path plan csv (set_csv_path plan csv o) = set_csv_path plan csv o.
Proof.
  unfold set_csv_path at 2 3.
  destruct (String.eqb (out_plan_id o) plan) eqn:E; [|apply set_csv_path_other].
  - unfold set_csv_path. cbn [out_plan_id]. rewrite E. reflexivity.
  - apply String.eqb_neq. exact E.
Qed.

(** X14: approving the same review a second time, with every call
    succeeding, overwrites the same CSV object with the same bytes and
    leaves the output rows as the first approval left them, yet it writes a
    second review row and debits a second credit. *)
Theorem repeated_approval_charges_twice_for_one_export c w u p csv :
  Resolves approve_ok c w u p ->
  csv_text (preview c) = Normal csv ->
  let w1 := (run (approveExport approve_ok) c w).2 in
  let r2 := run (approveExport approve_ok) c w1 in
  r2.1.1 = Alert "Approved & exported CSV."
  /\ storage r2.2 = storage w1
  /\ outputs r2.2 = outputs w1
  /\ reviews r2.2 = reviews w ++ [approval p; approval p]
  /\ usage_ledger r2.2 = usage_ledger w ++ [debit u p; debit u p]
  /\ balance (user_id u) r2.2 = balance (user_id u) w - 2.
Proof.
  intros Hres Hcsv w1 r2.
  destruct (approveExport_exported _ _ _ _ _ _ Hres Hcsv eq_refl)
    as (w1' & Hrun1 & Hp1 & Ho1 & Hr1 & Hl1 & Hs1 & _).
  assert (Ew1 : w1 = w1') by (unfold w1; rewrite Hrun1; reflexivity).
  clearbody w1. subst w1'.
  assert (Hres2 : Resolves approve_ok c w1 u p).
  { destruct Hres as [Hu Ht Hs Hl]. split; try assumption. rewrite Hp1. exact Hl. }
  destruct (approveExport_exported _ _ _ _ _ _ Hres2 Hcsv eq_refl)
    as (w2 & Hrun2 & _ & Ho2 & Hr2 & Hl2 & Hs2 & _).
  unfold r2. rewrite Hrun2. cbn [fst snd].
  cbn [approve_ok output_update_ok review_insert_ok ledger_insert_ok] in *.
  split; [reflexivity|].
  split; [rewrite Hs2, Hs1; apply insert_insert_eq|].
  split.
  { rewrite Ho2, Ho1, map_map. apply map_ext. intros o. apply set_csv_path_idem. }
  assert (Hl : usage_ledger w2 = usage_ledger w ++ [debit u p; debit u p]).
  { rewrite Hl2, Hl1, <- app_assoc. reflexivity. }
  split; [rewrite Hr2, Hr1, <- app_assoc; reflexivity|].
  split; [exact Hl|].
  unfold balance. rewrite Hl.
  change [debit u p; debit u p] with ([debit u p] ++ [debit u p]).
  rewrite app_assoc, !balance_after_debit. lia.
Qed.

Lemma repeated_approval_charges_twice_for_one_export_witness :
  let w1 := (run (approveExport approve_ok) reviewed_page two_plans).2 in
  let r2 := run (approveExport approve_ok) reviewed_page w1 in
  storage r2.2 = storage w1
  /\ usage_ledger r2.2 = [debit alice plan_p1; debit alice plan_p1].
Proof.
  destruct (repeated_approval_charges_twice_for_one_export reviewed_page two_plans
              alice plan_p1
              (match csv_text sample_json with Normal s => s | Throw _ => EmptyString end))
    as (_ & Hs & _ & _ & Hl & _).
  - split; reflexivity.
  - reflexivity.
  - split; [exact Hs | exact Hl].
Defined.

(** A reply that decodes is an object, so the preview it becomes is truthy. *)
Lemma decoded_reply_is_truthy json svg : decode_svg json = Normal svg -> truthy json = true.
Proof.
  destruct json as [| |b|x|s|l|props]; try reflexivity;
    intros H; exfalso; revert H; vm_compute; discriminate.
Qed.

(** [handleUpload] sets [preview] and [originalImg] and nothing else of the
    page state. *)
Lemma handleUpload_keeps_inputs env c w :
  let c' := (run (handleUpload env) c w).1.2 in
  user c' = user c /\ file c' = file c /\ pxPerFt c' = pxPerFt c.
Proof.
  upload_cases env c ltac:(cbn; repeat split; first [reflexivity | assumption]).
Qed.

Lemma latest_snoc ps q :
  (forall p, p ∈ ps -> plan_created_at p < plan_created_at q) ->
  latest (ps ++ [q]) = Some q.
Proof.
  induction ps as [|a rest IH]; intros H; [reflexivity|].
  change ((a :: rest) ++ [q]) with (a :: (rest ++ [q])).
  rewrite latest_cons, IH by (intros p Hp; apply H; right; exact Hp).
  assert (Ha : plan_created_at a < plan_created_at q) by (apply H; left).
  apply Z.ltb_lt in Ha. rewrite Ha. reflexivity.
Qed.

Lemma map_set_csv_path_other plan csv (os : list OutputRow) :
  (forall o, o ∈ os -> out_plan_id o <> plan) -> map (set_csv_path plan csv) os = os.
Proof.
  induction os as [|o os IH]; intros Hall; [reflexivity|].
  cbn [map]. rewrite set_csv_path_other by (apply Hall; left).
  f_equal. apply IH. intros o' Hin. apply Hall. right. exact Hin.
Qed.

(** X15: a complete upload followed by an approval with every call
    succeeding, when the new plan has a fresh id and the newest timestamp:
    the approval finds the plan just created, its one output row carries
    the SVG path and now the CSV path, both objects are in the [outputs]
    bucket beside the raster in [plans], and one review and one debit name
    the new plan. *)
Theorem upload_then_approve_exports_the_new_plan env c w u f g urls blob json svg csv :
  Reaches_end env c u f g urls blob json svg ->
  output_insert_ok env = true ->
  plan_update_ok env = true ->
  fresh_id (gen_id g) w ->
  (forall p, p ∈ plans w -> plan_created_at p < gen_created_at g) ->
  csv_text json = Normal csv ->
  let r1 := run (handleUpload env) c w in
  let r2 := run (approveExport approve_ok) r1.1.2 r1.2 in
  r2.1.1 = Alert "Approved & exported CSV."
  /\ outputs_of (gen_id g) r2.2
     = [ {| out_plan_id := gen_id g; out_svg_path := object_path u (gen_id g) "svg";
            out_dxf_path := None; out_csv_path := Some (object_path u (gen_id g) "csv");
            out_metrics := field json "metrics";
            out_confidence := field json "confidence" |} ]
  /\ storage r2.2
     = <[("outputs", object_path u (gen_id g) "csv") := csv_blob csv]>
         (<[("outputs", object_path u (gen_id g) "svg") :=
              TextBlob "image/svg+xml" (utf8_encode svg)]>
            (<[("plans", object_path u (gen_id g) "png") := blob]> (storage w)))
  /\ reviews r2.2
     = reviews w ++ [ {| review_plan_id := gen_id g; review_status := "approved" |} ]
  /\ usage_ledger r2.2
     = usage_ledger w ++ [ {| ledger_user_id := user_id u; ledger_plan_id := gen_id g;
                              ledger_event := "export_approved";
                              ledger_delta_credits := -1 |} ].
Proof.
  intros Hend Hins Hupd [Hfp Hfo] Hnew Hcsv r1 r2.
  destruct (handleUpload_to_the_end env c w _ _ _ _ _ _ _ Hend)
    as (c1 & w1 & Hrun & Hp & Ho & Hr & Hl & Hs & _ & Hprev).
  assert (Hu1 : user c1 = Some u).
  { pose proof (handleUpload_keeps_inputs env c w) as Hk. cbv zeta in Hk.
    rewrite Hrun in Hk. cbn [fst snd] in Hk. destruct Hk as (Hk & _).
    rewrite Hk. apply Hend. }
  subst r2 r1. rewrite Hrun. cbn [fst snd].
  rewrite Hupd, map_app, map_set_processed_other in Hp by exact Hfp.
  cbn [map] in Hp. rewrite set_processed_hit in Hp by reflexivity.
  cbn [inserted_plan plan_id plan_user_id plan_name plan_created_at] in Hp.
  rewrite Hins in Ho.
  set (q := {| plan_id := gen_id g; plan_user_id := user_id u; plan_name := file_name f;
               plan_page_count := length urls; plan_status := "processed";
               plan_created_at := gen_created_at g |}) in Hp.
  assert (Hres : Resolves approve_ok c1 w1 u q).
  { split; [exact Hu1 | | reflexivity | ].
    - rewrite Hprev. eapply decoded_reply_is_truthy. apply Hend.
    - rewrite Hp. apply latest_snoc. exact Hnew. }
  rewrite <- Hprev in Hcsv.
  destruct (approveExport_exported _ _ _ _ _ _ Hres Hcsv eq_refl)
    as (w2 & Hrun2 & _ & Ho2 & Hr2 & Hl2 & Hs2 & _).
  rewrite Hrun2. cbn [fst snd].
  cbn [approve_ok output_update_ok review_insert_ok ledger_insert_ok q plan_id] in *.
  split; [reflexivity|].
  split; [|split; [rewrite Hs2, Hs; reflexivity|
           split; [rewrite Hr2, Hr; reflexivity | rewrite Hl2, Hl; reflexivity]]].
  unfold outputs_of. rewrite Ho2, Ho, map_app, map_set_csv_path_other by exact Hfo.
  rewrite filter_app, filter_none by exact Hfo.
  cbn [map app]. unfold set_csv_path, output_row.
  cbn [out_plan_id out_svg_path out_dxf_path out_metrics out_confidence].
  rewrite String.eqb_refl.
  rewrite filter_cons_True by reflexivity. reflexivity.
Qed.

Lemma upload_then_approve_exports_the_new_plan_witness :
  let r1 := run (handleUpload all_ok) fresh_page bobs_world in
  let r2 := run (approveExport approve_ok) r1.1.2 r1.2 in
  r2.1.1 = Alert "Approved & exported CSV."
  /\ usage_ledger r2.2
     = [ {| ledger_user_id := "alice"; ledger_plan_id := "p1";
            ledger_event := "export_approved"; ledger_delta_credits := -1 |} ].
Proof.
  destruct (upload_then_approve_exports_the_new_plan all_ok fresh_page bobs_world
              alice plan_pdf p1 (png_of <$> [11; 12; 13]%N)
              (PngBlob {| vp_page := 11%N; vp_scale := Finite false 2 1 |})
              sample_json "<svg/>"
              (match csv_text sample_json with Normal s => s | Throw _ => EmptyString end))
    as (He & _ & _ & _ & Hl).
  - split; [split; reflexivity | exists 200; reflexivity | reflexivity | reflexivity].
  - reflexivity.
  - reflexivity.
  - split; intros x Hx.
    + apply list_elem_of_singleton in Hx. subst x. discriminate.
    + inversion Hx.
  - intros x Hx. apply list_elem_of_singleton in Hx. subst x. reflexivity.
  - reflexivity.
  - split; [exact He | exact Hl].
Defined.

(** The run that ends at the failed SVG upload, in closed form. *)
Lemma handleUpload_svg_not_stored env c w u f g urls blob status json svg :
  Reaches_worker env c u f g urls blob ->
  worker_reply env = HttpReply status (Some json) ->
  decode_svg json = Normal svg ->
  svg_upload_ok env = false ->
  exists c' w',
    run (handleUpload env) c w = (Alert "SVG store failed", c', w')
    /\ user c' = Some u
    /\ preview c' = json
    /\ plans w' = plans w ++ [inserted_plan u f g]
    /\ outputs w' = outputs w
    /\ reviews w' = reviews w
    /\ usage_ledger w' = usage_ledger w
    /\ storage w' = <[("plans", object_path u (gen_id g) "png") := blob]> (storage w).
Proof.
  intros [Hu Hf Hg Hr Hb Hro] Hw Hd Hso.
  unfold handleUpload. calc. rewrite Hu, Hf, Hg. calc. rewrite Hr. calc.
  rewrite Hb. calc. rewrite Hro. calc. rewrite Hw. calc. rewrite Hd. calc.
  rewrite Hso. calc.
  eexists _, _. split; [reflexivity|]. cbn.
  repeat split; first [reflexivity | assumption].
Qed.

(** X16: after "SVG store failed" the page shows the review panel, and an
    approval from there (every call succeeding, the new plan being the
    newest) debits a credit and stores a CSV for a plan that has no SVG in
    the bucket and no output row: the [outputs] table is as before the
    upload and the plan still has its initial status. *)
Theorem approval_after_failed_svg_store_is_charged env c w u f g urls blob status json svg csv :
  Reaches_worker env c u f g urls blob ->
  worker_reply env = HttpReply status (Some json) ->
  decode_svg json = Normal svg ->
  svg_upload_ok env = false ->
  fresh_id (gen_id g) w ->
  (forall p, p ∈ plans w -> plan_created_at p < gen_created_at g) ->
  csv_text json = Normal csv ->
  let r1 := run (handleUpload env) c w in
  let r2 := run (approveExport approve_ok) r1.1.2 r1.2 in
  r1.1.1 = Alert "SVG store failed"
  /\ r2.1.1 = Alert "Approved & exported CSV."
  /\ usage_ledger r2.2 = usage_ledger w ++ [debit u (inserted_plan u f g)]
  /\ outputs r2.2 = outputs w
  /\ plans r2.2 = plans w ++ [inserted_plan u f g]
  /\ storage r2.2
     = <[("outputs", object_path u (gen_id g) "csv") := csv_blob csv]>
         (<[("plans", object_path u (gen_id g) "png") := blob]> (storage w)).
Proof.
  intros Hrw Hw Hd Hso [Hfp Hfo] Hnew Hcsv r1 r2.
  destruct (handleUpload_svg_not_stored env c w _ _ _ _ _ _ _ _ Hrw Hw Hd Hso)
    as (c1 & w1 & Hrun & Hu1 & Hprev & Hp & Ho & Hr & Hl & Hs).
  subst r2 r1. rewrite Hrun. cbn [fst snd].
  assert (Hres : Resolves approve_ok c1 w1 u (inserted_plan u f g)).
  { split; [exact Hu1 | | reflexivity | ].
    - rewrite Hprev. eapply decoded_reply_is_truthy. exact Hd.
    - rewrite Hp. apply latest_snoc. exact Hnew. }
  rewrite <- Hprev in Hcsv.
  destruct (approveExport_exported _ _ _ _ _ _ Hres Hcsv eq_refl)
    as (w2 & Hrun2 & Hp2 & Ho2 & _ & Hl2 & Hs2 & _).
  rewrite Hrun2. cbn [fst snd].
  cbn [approve_ok output_update_ok ledger_insert_ok inserted_plan plan_id] in *.
  split; [reflexivity|]. split; [reflexivity|].
  split; [rewrite Hl2, Hl; reflexivity|].
  split; [rewrite Ho2, Ho; apply map_set_csv_path_other; exact Hfo|].
  split; [rewrite Hp2, Hp; reflexivity|].
  rewrite Hs2, Hs. reflexivity.
Qed.

Lemma approval_after_failed_svg_store_is_charged_witness :
  let r1 := run (handleUpload svg_upload_fails) fresh_page bobs_world in
  let r2 := run (approveExport approve_ok) r1.1.2 r1.2 in
  r1.1.1 = Alert "SVG store failed"
  /\ r2.1.1 = Alert "Approved & exported CSV."
  /\ usage_ledger r2.2 = [debit alice (inserted_plan alice plan_pdf p1)]
  /\ outputs r2.2 = [].
Proof.
  destruct (approval_after_failed_svg_store_is_charged svg_upload_fails fresh_page
              bobs_world alice plan_pdf p1 (png_of <$> [11; 12; 13]%N)
              (PngBlob {| vp_page := 11%N; vp_scale := Finite false 2 1 |})
              200 sample_json "<svg/>"
              (match csv_text sample_json with Normal s => s | Throw _ => EmptyString end))
    as (H1 & H2 & Hl & Ho & _).
  - split; reflexivity.
  - reflexivity.
  - reflexivity.
  - reflexivity.
  - split; intros x Hx.
    + apply list_elem_of_singleton in Hx. subst x. discriminate.
    + inversion Hx.
  - intros x Hx. apply list_elem_of_singleton in Hx. subst x. reflexivity.
  - reflexivity.
  - repeat split; assumption.
Defined.

(* ===================================================================== *)
(** ** The page as rendered, against its handlers *)
(* ===================================================================== *)

Lemma approveExport_guard_iff env c w :
  (run (approveExport env) c w).1.1 = Guard
  <-> user c = None \/ truthy (preview c) = false.
Proof.
  approve_cases env c w
    ltac:(cbn [fst snd]; split;
          [ intros H; first [discriminate H | auto]
          | intros [H|H]; first [reflexivity | congruence] ]).
Qed.

Lemma render_without_panel_iff in_browser c :
  render in_browser c = Normal (Nothing in_browser)
  \/ render in_browser c = Normal (UploadForm (pxPerFt c) (inl (preview c)))
  <-> user c = None \/ truthy (preview c) = false.
Proof.
  unfold render.
  destruct (user c) as [u|]; [|split; intros _; left; reflexivity].
  destruct (truthy (preview c)).
  - split; [|intros [H|H]; discriminate H].
    unfold and_then.
    destruct (decode_svg (preview c)); [|intros [H|H]; discriminate H].
    destruct (get (preview c) "confidence"); [|intros [H|H]; discriminate H].
    destruct (get (preview c) "metrics") as [m|]; [|intros [H|H]; discriminate H].
    destruct (get m "walls_len_ft"); intros [H|H]; discriminate H.
  - split; intros _; right; reflexivity.
Qed.

(** X17: the first line of [approveExport] and the page agree.  A call
    returns at the guard exactly when the page, rendered from the same
    state, shows no review panel (nothing at all for a signed-out visitor,
    or the form alone): a click on a rendered "Approve & Export CSV" button
    always gets past the guard and queries the plans. *)
Theorem approve_button_matches_the_guard in_browser env c w :
  (run (approveExport env) c w).1.1 = Guard
  <-> (render in_browser c = Normal (Nothing in_browser)
       \/ render in_browser c = Normal (UploadForm (pxPerFt c) (inl (preview c)))).
Proof.
  rewrite approveExport_guard_iff, render_without_panel_iff. reflexivity.
Qed.

(** The page state a run leaves when it gets past the SVG upload. *)
Lemma handleUpload_end_page env c w u f g urls blob json svg :
  Reaches_end env c u f g urls blob json svg ->
  (run (handleUpload env) c w).1.1 = Alert "Processed. Review below."
  /\ (run (handleUpload env) c w).1.2
     = {| user := Some u; file := Some f; pxPerFt := pxPerFt c; preview := json;
          originalImg := Some (PublicUrl "plans" (object_path u (gen_id g) "png")) |}.
Proof.
  intros [[Hu Hf Hg Hr Hb Hro] [st Hw] Hd Hso].
  unfold handleUpload. calc. rewrite Hu, Hf, Hg. calc. rewrite Hr. calc.
  rewrite Hb. calc. rewrite Hro. calc. rewrite Hw. calc. rewrite Hd. calc.
  rewrite Hso. calc. rewrite !(decode_svg_get _ _ Hd). calc.
  destruct (output_insert_ok env), (plan_update_ok env); calc; cbn;
    rewrite Hu, Hf; split; reflexivity.
Qed.

(** X18: after a complete upload whose reply has a [metrics] object, the
    page renders the review panel from what the run left: the original is
    the public URL of the stored first page, the markup injected into the
    page is the string [atob] decoded from the reply (the one the run
    stored), and the two numbers are the reply's [confidence] and
    [metrics.walls_len_ft]. *)
Theorem complete_upload_shows_the_decoded_svg
    in_browser env c w u f g urls blob json svg m v :
  Reaches_end env c u f g urls blob json svg ->
  get json "metrics" = Normal m ->
  get m "walls_len_ft" = Normal v ->
  render in_browser (run (handleUpload env) c w).1.2
  = Normal (UploadForm (pxPerFt c)
              (inr {| panel_original :=
                        Some (PublicUrl "plans" (object_path u (gen_id g) "png"));
                      panel_svg_html := svg;
                      panel_confidence := field json "confidence";
                      panel_walls_len_ft := v |})).
Proof.
  intros Hend Hm Hv.
  destruct (handleUpload_end_page env c w _ _ _ _ _ _ _ Hend) as [_ ->].
  unfold render. cbn [user preview pxPerFt originalImg].
  rewrite (decoded_reply_is_truthy json svg) by apply Hend.
  unfold and_then. rewrite (re_svg _ _ _ _ _ _ _ _ _ Hend).
  rewrite (decode_svg_get _ _ (re_svg _ _ _ _ _ _ _ _ _ Hend) "confidence").
  rewrite Hm, Hv. reflexivity.
Qed.

Lemma complete_upload_shows_the_decoded_svg_witness :
  render true (run (handleUpload all_ok) fresh_page empty_world).1.2
  = Normal (UploadForm (Finite false 12 2)
              (inr {| panel_original := Some (PublicUrl "plans" "user-alice/p1/page-1.png");
                      panel_svg_html := "<svg/>";
                      panel_confidence := JNumber (Finite false 9 0);
                      panel_walls_len_ft := JNumber (Finite false 1205 3) |})).
Proof.
  apply (complete_upload_shows_the_decoded_svg true all_ok fresh_page empty_world
           alice plan_pdf p1 (png_of <$> [11; 12; 13]%N)
           (PngBlob {| vp_page := 11%N; vp_scale := Finite false 2 1 |})
           sample_json "<svg/>" sample_metrics (JNumber (Finite false 1205 3))).
  - split; [split; reflexivity | exists 200; reflexivity | reflexivity | reflexivity].
  - reflexivity.
  - reflexivity.
Defined.

(** X19: a reply that carries a decodable [svg] but no [metrics] object is
    processed to the end: the run alerts "Processed. Review below." and
    asks the database for an output row whose metrics are [undefined].  The
    render that follows throws a TypeError at [preview.metrics.walls_len_ft],
    so the review announced by the alert is never shown. *)
Theorem processed_reply_without_metrics_breaks_the_render
    in_browser env c w u f g urls blob json svg m :
  Reaches_end env c u f g urls blob json svg ->
  get json "metrics" = Normal m ->
  m = JUndefined \/ m = JNull ->
  (run (handleUpload env) c w).1.1 = Alert "Processed. Review below."
  /\ InsertOutput {| out_plan_id := gen_id g;
                     out_svg_path := object_path u (gen_id g) "svg";
                     out_dxf_path := None; out_csv_path := None;
                     out_metrics := m; out_confidence := field json "confidence" |}
       ∈ sent (run (handleUpload env) c w).2
  /\ render in_browser (run (handleUpload env) c w).1.2 = Throw TypeError.
Proof.
  intros Hend Hm Hor.
  destruct (handleUpload_end_page env c w _ _ _ _ _ _ _ Hend) as [He Hc].
  split; [exact He|]. split.
  - destruct (handleUpload_to_the_end env c w _ _ _ _ _ _ _ Hend)
      as (c' & w' & Hrun & _ & _ & _ & _ & _ & Hsent & _).
    rewrite Hrun. cbn [snd]. rewrite Hsent. apply elem_of_app. right.
    unfold upload_requests, output_row, field. rewrite Hm.
    rewrite !elem_of_cons. do 4 right. left. reflexivity.
  - rewrite Hc. unfold render. cbn [user preview pxPerFt originalImg].
    rewrite (decoded_reply_is_truthy json svg) by apply Hend.
    unfold and_then. rewrite (re_svg _ _ _ _ _ _ _ _ _ Hend).
    rewrite (decode_svg_get _ _ (re_svg _ _ _ _ _ _ _ _ _ Hend) "confidence").
    rewrite Hm. destruct Hor as [-> | ->]; reflexivity.
Qed.

Lemma processed_reply_without_metrics_breaks_the_render_witness :
  (run (handleUpload svg_only_reply) fresh_page empty_world).1.1
  = Alert "Processed. Review below."
  /\ render true (run (handleUpload svg_only_reply) fresh_page empty_world).1.2
     = Throw TypeError.
Proof.
  destruct (processed_reply_without_metrics_breaks_the_render true svg_only_reply
              fresh_page empty_world alice plan_pdf p1 (png_of <$> [11; 12; 13]%N)
              (PngBlob {| vp_page := 11%N; vp_scale := Finite false 2 1 |})
              (JObject [("svg", JString "PHN2Zy8+")]) "<svg/>" JUndefined)
    as (He & _ & Hr).
  - split; [split; reflexivity | exists 200; reflexivity | reflexivity | reflexivity].
  - reflexivity.
  - left. reflexivity.
  - split; [exact He | exact Hr].
Defined.

(** X20: the worker is only ever asked about a raster the run has stored.
    Whatever the collaborators answer, a request that [handleUpload] sends
    to the worker carries the public URL of an object of the [plans] bucket
    that is in the bucket when the run ends, and the scale of the form as
    [String(pxPerFt)] prints it. *)
Theorem worker_is_sent_only_a_stored_raster env c w url s :
  let w' := (run (handleUpload env) c w).2 in
  Vectorize url s ∈ drop (length (sent w)) (sent w') ->
  s = Number_toString (pxPerFt c)
  /\ exists path blob,
       url = PublicUrl "plans" path /\ storage w' !! ("plans", path) = Some blob.
Proof.
  upload_cases env c
    ltac:(cbn; rewrite <- ?app_assoc, ?drop_app_length, ?drop_all; cbn [app];
          let H := fresh "H" in
          intros H; rewrite ?elem_of_cons, ?elem_of_nil in H;
          decompose [or] H; try discriminate; try contradiction;
          match goal with
          | E : Vectorize _ _ = Vectorize _ _ |- _ => injection E as -> ->
          end;
          (split; [reflexivity|]); eexists _, _; (split; [reflexivity|]);
          rewrite ?(lookup_insert_ne (M := gmap (string * string))) by discriminate;
          apply lookup_insert_eq).
Qed.

Lemma worker_is_sent_only_a_stored_raster_witness :
  exists blob,
    storage (run (handleUpload worker_down) fresh_page empty_world).2
      !! ("plans", "user-alice/p1/page-1.png") = Some blob.
Proof.
  destruct (worker_is_sent_only_a_stored_raster worker_down fresh_page empty_world
              (PublicUrl "plans" "user-alice/p1/page-1.png") "12")
    as (_ & path & blob & Hurl & Hst).
  - vm_compute. do 2 right. left. 
  - injection Hurl as <-. exists blob. exact Hst.
Defined.

(** X21: [approveExport] writes one object at most, the CSV of the newest
    plan under the caller's folder of the [outputs] bucket: every other key
    of the storage, the stored rasters and SVGs among them, holds after the
    call what it held before, whatever the collaborators answer. *)
Theorem approveExport_writes_only_the_csv env c w (k : string * string) :
  (forall u p, user c = Some u -> latest (plans w) = Some p ->
     k <> ("outputs", object_path u (plan_id p) "csv")) ->
  storage (run (approveExport env) c w).2 !! k = storage w !! k.
Proof.
  approve_cases env c w
    ltac:(let H := fresh "H" in
          intros H; cbn;
          first [ reflexivity
                | specialize (H _ _ eq_refl eq_refl);
                  rewrite ?lookup_insert_ne by (apply not_eq_sym; assumption);
                  reflexivity ]).
Qed.

Lemma approveExport_writes_only_the_csv_witness :
  storage (run (approveExport approve_ok) reviewed_page bobs_world).2
    !! ("plans", "user-bob/p0/page-1.png")
  = Some (FileBlob broken_png).
Proof.
  rewrite (approveExport_writes_only_the_csv approve_ok reviewed_page bobs_world
             ("plans", "user-bob/p0/page-1.png")).
  - reflexivity.
  - intros u p Hu Hp. discriminate.
Defined.
